(** * MT5 login client, snapshot fetcher and dashboard polling: a model

    A shallow embedding of [services/mt5Api.ts] (credential and token
    validation, the login exchange, the account snapshot fetch), of the
    polling logic of [components/Dashboard.tsx], of the checks of
    [components/LoginForm.tsx] and of the session of [App.tsx], with the
    properties the specification states about them and further ones read
    off the code. *)

From Stdlib Require Import ZArith QArith Ascii String List Lia Bool Sorted.
From stdpp Require Import base option list strings gmap pretty.
Import ListNotations.

Set Warnings "-register-all".
Local Open Scope string_scope.

(** ** JavaScript strings

    A string is a sequence of code units; the model covers the code units
    U+0000 to U+00FF, one [ascii] each. *)
Module JSString.

Definition code (a : ascii) : N := N_of_ascii a.

(** White space and line terminators stripped by [String.prototype.trim]
    (those below U+0100): TAB, LF, VT, FF, CR, SPACE, NBSP. *)
Definition isWhiteSpace (a : ascii) : bool :=
  let c := code a in
  ((9 <=? c) && (c <=? 13) || (c =? 32) || (c =? 160))%N.

Fixpoint trimStart (s : string) : string :=
  match s with
  | EmptyString => EmptyString
  | String a r => if isWhiteSpace a then trimStart r else s
  end.

(** [trimEnd] drops a character when it is white space and everything
    after it has been dropped. *)
Fixpoint trimEnd (s : string) : string :=
  match s with
  | EmptyString => EmptyString
  | String a r =>
      match trimEnd r with
      | EmptyString => if isWhiteSpace a then EmptyString else String a EmptyString
      | r' => String a r'
      end
  end.

Definition trim (s : string) : string := trimEnd (trimStart s).

(** [toLowerCase] on one code unit: A-Z, and the Latin-1 capitals
    U+00C0-U+00DE except the multiplication sign U+00D7. *)
Definition lowerChar (a : ascii) : ascii :=
  let c := code a in
  if ((65 <=? c) && (c <=? 90)
      || (192 <=? c) && (c <=? 222) && negb (c =? 215))%N
  then ascii_of_N (c + 32) else a.

Fixpoint toLowerCase (s : string) : string :=
  match s with
  | EmptyString => EmptyString
  | String a r => String (lowerChar a) (toLowerCase r)
  end.

Fixpoint startsWith (p s : string) : bool :=
  match p, s with
  | EmptyString, _ => true
  | String a p', String b s' => Ascii.eqb a b && startsWith p' s'
  | String _ _, EmptyString => false
  end.

(** [s.includes(p)]: [p] occurs in [s] as a contiguous substring. *)
Fixpoint includes (s p : string) : bool :=
  startsWith p s ||
  match s with
  | EmptyString => false
  | String _ r => includes r p
  end.

(** The character class [\d]. *)
Definition isDigit (a : ascii) : bool :=
  let c := code a in ((48 <=? c) && (c <=? 57))%N.

Fixpoint allDigits (s : string) : bool :=
  match s with
  | EmptyString => true
  | String a r => isDigit a && allDigits r
  end.

(** [/^\d+$/.test(s)]: one or more digits and nothing else. *)
Definition test_digits (s : string) : bool :=
  match s with
  | EmptyString => false
  | String _ _ => allDigits s
  end.

(** A string is falsy exactly when it is empty. *)
Definition nonEmpty (s : string) : bool :=
  match s with EmptyString => false | String _ _ => true end.

End JSString.

(** ** JavaScript values, exceptions and effects *)
Module JS.

(** Run-time values, as [JSON.parse] and the literals of the code build
    them. A number is the rational its finite double denotes. *)
Inductive Value :=
  | JUndefined
  | JNull
  | JBool (b : bool)
  | JNumber (q : Q)
  | JString (s : string)
  | JArray (l : list Value)
  | JObject (m : gmap string Value).

Definition truthy (v : Value) : bool :=
  match v with
  | JUndefined | JNull => false
  | JBool b => b
  | JNumber q => negb (Qnum q =? 0)%Z
  | JString s => JSString.nonEmpty s
  | JArray _ | JObject _ => true
  end.

Definition nullish (v : Value) : bool :=
  match v with
  | JUndefined | JNull => true
  | _ => false
  end.

(** [a || b] *)
Definition or_else (a b : Value) : Value := if truthy a then a else b.

(** [a ?? b] *)
Definition coalesce (a b : Value) : Value := if nullish a then b else a.

(** What a [throw] carries, as far as the handlers of the code tell
    values apart: an instance of [TypeError], another [Error] instance
    with its [name] and [message], or a value that is no [Error]. *)
Inductive Thrown :=
  | ThrowTypeError (message : string)
  | ThrowError (name message : string)
  | ThrowValue (v : Value).

Inductive Outcome (A : Type) :=
  | Returned (a : A)
  | Threw (e : Thrown).
Arguments Returned {A} a.
Arguments Threw {A} e.

(** [v.k] for a property name [k] that no built-in prototype defines
    (every name the code reads is such a one): an own property of an
    object, [undefined] on other values, a [TypeError] on [null] and
    [undefined]. *)
Definition get (v : Value) (k : string) : Outcome Value :=
  match v with
  | JUndefined | JNull =>
      Threw (ThrowTypeError "Cannot read properties of null or undefined")
  | JObject m => Returned (default JUndefined (m !! k))
  | _ => Returned JUndefined
  end.

(** [v?.k] *)
Definition get_opt (v : Value) (k : string) : Value :=
  match v with
  | JObject m => default JUndefined (m !! k)
  | _ => JUndefined
  end.

(** *** Requests, responses and the log of effects *)

Record Request := {
  path : string;
  params : list (string * string)
}.

(** A [Response] as the code observes it: the status line, the
    [content-type] header, and how [text()] and [json()] settle. *)
Record Response := {
  status : N;
  statusText : string;
  contentType : option string;
  text : Outcome string;
  json : Outcome Value
}.

(** [response.ok] *)
Definition ok (r : Response) : bool :=
  ((200 <=? status r) && (status r <=? 299))%N.

Inductive LogArg :=
  | LStr (s : string)
  | LNum (n : N)
  | LThrown (e : Thrown).

Inductive Event :=
  | Fetch (r : Request)
  | ConsoleError (args : list LogArg).

(** The network: how the [fetch] of a request settles, and which of two
    concurrent requests settles first. *)
Record Network := {
  respond : Request -> Outcome Response;
  first_settles_first : bool
}.

(** A computation ends by returning or throwing, after a sequence of
    observable effects. *)
Definition M (A : Type) : Type := (Outcome A * list Event)%type.

Definition ret {A} (a : A) : M A := (Returned a, []).

Definition throw {A} (e : Thrown) : M A := (Threw e, []).

Definition bind {A B} (m : M A) (f : A -> M B) : M B :=
  match m with
  | (Returned a, l) => let '(r, l') := f a in (r, (l ++ l')%list)
  | (Threw e, l) => (Threw e, l)
  end.

(** [try { m } catch (e) { h e }] *)
Definition try_catch {A} (m : M A) (h : Thrown -> M A) : M A :=
  match m with
  | (Threw e, l) => let '(r, l') := h e in (r, (l ++ l')%list)
  | (Returned a, l) => (Returned a, l)
  end.

Definition lift {A} (o : Outcome A) : M A := (o, []).

Definition emit (ev : Event) : M unit := (Returned tt, [ev]).

Definition console_error (args : list LogArg) : M unit :=
  emit (ConsoleError args).

(** [await fetch(...)] *)
Definition fetch (net : Network) (r : Request) : M Response :=
  (respond net r, [Fetch r]).

(** [await Promise.all([fetch(r1), fetch(r2)])]: both requests are
    issued; the result is the pair of responses, or the rejection that
    comes first. *)
Definition fetch_all2 (net : Network) (r1 r2 : Request)
  : M (Response * Response) :=
  let o :=
    match respond net r1, respond net r2 with
    | Returned a, Returned b => Returned (a, b)
    | Threw e, Returned _ => Threw e
    | Returned _, Threw e => Threw e
    | Threw e1, Threw e2 =>
        if first_settles_first net then Threw e1 else Threw e2
    end in
  (o, [Fetch r1; Fetch r2]).

Definition result {A} (m : M A) : Outcome A := fst m.
Definition effects {A} (m : M A) : list Event := snd m.

(** The requests a computation issued. *)
Definition requests (l : list Event) : list Request :=
  omap (fun ev => match ev with Fetch r => Some r | _ => None end) l.

End JS.

Notation "'let*' x := m 'in' k" := (JS.bind m (fun x => k))
  (at level 10, x name, m at level 100, k at level 200, only parsing).
Notation "'let*' ' p := m 'in' k" :=
  (JS.bind m (fun x => match x with p => k end))
  (at level 10, p pattern, m at level 100, k at level 200, only parsing).

(** ** [services/mt5Api.ts] *)
Module Api.
Import JSString JS.

Definition MT5_API_BASE : string := "/api".

(** *** Types ([types/mt5.ts]) *)

Record LoginCredentials := {
  username : string;
  password : string;
  server : string
}.

(** The fields hold what the code stores in them at run time; the
    declared types ([number], [string]) are not checked. *)
Record AccountInfo := {
  balance : Value;
  equity : Value;
  margin : Value;
  freeMargin : Value;
  marginLevel : Value;
  currency : Value;
  accountNumber : Value;
  accountName : Value;
  serverName : Value;
  leverage : Value;
  profit : Value
}.

Record LoginResponse := {
  success : bool;
  token : option string;
  error : option Value
}.

Definition login_success (t : string) : LoginResponse :=
  {| success := true; token := Some t; error := None |}.

Definition login_failure (e : Value) : LoginResponse :=
  {| success := false; token := None; error := Some e |}.

(** *** validateToken *)

Definition errorKeywords : list string :=
  ["error"; "invalid"; "failed"; "denied"; "unauthorized"].

Definition validateToken (token : string) : bool :=
  if negb (nonEmpty token) || (String.length token <? 10)%nat then false
  else
    let lowerToken := toLowerCase token in
    negb (existsb (fun keyword => includes lowerToken keyword) errorKeywords).

(** *** validateCredentials *)

Definition validateCredentials (credentials : LoginCredentials)
  : option string :=
  if negb (nonEmpty (trim (username credentials))) then
    Some "Username is required"
  else if negb (nonEmpty (trim (password credentials))) then
    Some "Password is required"
  else if negb (nonEmpty (trim (server credentials))) then
    Some "Server is required"
  else if negb (test_digits (trim (username credentials))) then
    Some "Username must be a valid account number (numeric)"
  else None.

(** *** handleApiError *)

(** [`${n}`] for a status code. *)
Definition show (n : N) : string := pretty n.

Definition isJson (contentType : option string) : bool :=
  match contentType with
  | Some ct => includes ct "application/json"
  | None => false
  end.

Definition handleApiError (response : Response) : M Value :=
  try_catch
    (if isJson (contentType response) then
       let* errorData := lift (json response) in
       let* message := lift (get errorData "message") in
       if truthy message then ret message
       else
         let* err := lift (get errorData "error") in
         ret (or_else err (JString ("API Error: " +:+ show (status response))))
     else
       let* errorText := lift (text response) in
       ret (JString (if nonEmpty errorText then errorText
                     else "HTTP Error: " +:+ show (status response))))
    (fun _ =>
       ret (JString ("Network Error: " +:+ show (status response) +:+ " "
                     +:+ statusText response))).

(** *** loginToMT5 *)

Definition loginRequest (credentials : LoginCredentials) : Request :=
  {| path := MT5_API_BASE +:+ "/ConnectEx";
     params := [("user", trim (username credentials));
                ("password", password credentials);
                ("server", trim (server credentials))] |}.

Definition truthy_message (o : option string) : bool :=
  match o with
  | Some m => nonEmpty m
  | None => false
  end.

Definition loginToMT5 (net : Network) (credentials : LoginCredentials)
  : M LoginResponse :=
  try_catch
    (let validationError := validateCredentials credentials in
     if truthy_message validationError then
       ret (login_failure (JString (default EmptyString validationError)))
     else
       let* response := fetch net (loginRequest credentials) in
       if ok response && (status response =? 200)%N then
         let* token := lift (text response) in
         if validateToken token then ret (login_success (trim token))
         else
           ret (login_failure
                  (JString "Invalid authentication token received"))
       else
         let* errorMessage := handleApiError response in
         ret (login_failure errorMessage))
    (fun error =>
       match error with
       | ThrowTypeError _ =>
           ret (login_failure (JString
             "Network connection failed. Please check your internet connection."))
       | ThrowError name message =>
           if String.eqb name "AbortError" then
             ret (login_failure (JString "Request timeout. Please try again."))
           else ret (login_failure (JString message))
       | ThrowValue _ =>
           ret (login_failure (JString "An unexpected error occurred"))
       end).

(** *** getAccountInfo *)

Definition defaultAccountInfo : AccountInfo :=
  {| balance := JNumber 0;
     equity := JNumber 0;
     margin := JNumber 0;
     freeMargin := JNumber 0;
     marginLevel := JNumber 0;
     currency := JString "USD";
     accountNumber := JString "N/A";
     accountName := JString "N/A";
     serverName := JString "N/A";
     leverage := JNumber 0;
     profit := JNumber 0 |}.

Definition summaryRequest (token : string) : Request :=
  {| path := MT5_API_BASE +:+ "/AccountSummary"; params := [("id", token)] |}.

Definition detailsRequest (token : string) : Request :=
  {| path := MT5_API_BASE +:+ "/AccountDetails"; params := [("id", token)] |}.

(** One source's data: the parsed body of a successful response, and the
    empty object when the status is not 2xx or the body does not parse. *)
Definition readSource (what : string) (response : Response) : M Value :=
  if ok response then
    try_catch (lift (json response))
      (fun error =>
         let* _ := console_error
                     [LStr ("Failed to parse account " +:+ what +:+ ":");
                      LThrown error] in
         ret (JObject ∅))
  else
    let* _ := console_error
                [LStr ("Account " +:+ what +:+ " request failed:");
                 LNum (status response)] in
    ret (JObject ∅).

(** The object literal that getAccountInfo returns. *)
Definition combine (summaryData detailsData : Value) : AccountInfo :=
  let d := defaultAccountInfo in
  {| balance := coalesce (get_opt summaryData "balance") (balance d);
     equity := coalesce (get_opt summaryData "equity") (equity d);
     margin := coalesce (get_opt summaryData "margin") (margin d);
     freeMargin := coalesce (get_opt summaryData "freeMargin") (freeMargin d);
     marginLevel :=
       coalesce (get_opt summaryData "marginLevel") (marginLevel d);
     currency := coalesce (get_opt summaryData "currency") (currency d);
     profit := coalesce (get_opt summaryData "profit") (profit d);
     accountNumber :=
       coalesce (get_opt detailsData "accountNumber") (accountNumber d);
     accountName :=
       coalesce (get_opt detailsData "accountName") (accountName d);
     serverName := coalesce (get_opt detailsData "serverName") (serverName d);
     leverage := coalesce (get_opt detailsData "leverage") (leverage d) |}.

(** The body of the [try] block of getAccountInfo. *)
Definition getAccountInfo_try (net : Network) (token : string)
  : M AccountInfo :=
  let* '(summaryResponse, detailsResponse) :=
    fetch_all2 net (summaryRequest token) (detailsRequest token) in
  let* summaryData := readSource "summary" summaryResponse in
  let* detailsData := readSource "details" detailsResponse in
  ret (combine summaryData detailsData).

Definition getAccountInfo (net : Network) (token : string) : M AccountInfo :=
  if negb (nonEmpty (trim token)) then
    let* _ := console_error [LStr "No authentication token provided"] in
    ret defaultAccountInfo
  else
    try_catch (getAccountInfo_try net token)
      (fun error =>
         let* _ := console_error
                     [LStr "Error fetching account information:";
                      LThrown error] in
         ret defaultAccountInfo).

End Api.

(** ** [components/Dashboard.tsx]: the polling logic

    The component as a transition system. Its state is the React state and
    the two refs of the component, the live intervals and the pending
    getAccountInfo calls of the platform, and a record of the order in
    which results were published. A render and the effects it schedules
    are one step. *)
Module Dashboard.
Import JS.

(** A live [setInterval]: its period and the [isRealTimeActive] that the
    callback closed over. *)
Record Interval := {
  period : N;
  capturedActive : bool
}.

Record State := {
  (* useState *)
  accountInfo : option Api.AccountInfo;
  isLoading : bool;
  lastUpdated : N;
  isConnected : bool;
  updateCount : N;
  isRealTimeActive : bool;
  (* useRef *)
  intervalRef : option nat;
  mountedRef : bool;
  (* platform: live intervals by handle, pending fetches by number (the
     value is the call's [showLoading]), whether the component is in
     the tree *)
  timers : gmap nat Interval;
  nextTimer : nat;
  pending : gmap nat bool;
  nextFetch : nat;
  live : bool;
  (* the fetches whose snapshot was published, the latest first *)
  published : list nat
}.

(** [setIsLoading(v)] *)
Definition setIsLoading (v : bool) (s : State) : State :=
  {| accountInfo := accountInfo s; isLoading := v;
     lastUpdated := lastUpdated s; isConnected := isConnected s;
     updateCount := updateCount s; isRealTimeActive := isRealTimeActive s;
     intervalRef := intervalRef s; mountedRef := mountedRef s;
     timers := timers s; nextTimer := nextTimer s; pending := pending s;
     nextFetch := nextFetch s; live := live s; published := published s |}.

(** [setIsConnected(v)] *)
Definition setIsConnected (v : bool) (s : State) : State :=
  {| accountInfo := accountInfo s; isLoading := isLoading s;
     lastUpdated := lastUpdated s; isConnected := v;
     updateCount := updateCount s; isRealTimeActive := isRealTimeActive s;
     intervalRef := intervalRef s; mountedRef := mountedRef s;
     timers := timers s; nextTimer := nextTimer s; pending := pending s;
     nextFetch := nextFetch s; live := live s; published := published s |}.

(** [isRealTimeActive] after the state update *)
Definition setIsRealTimeActive (v : bool) (s : State) : State :=
  {| accountInfo := accountInfo s; isLoading := isLoading s;
     lastUpdated := lastUpdated s; isConnected := isConnected s;
     updateCount := updateCount s; isRealTimeActive := v;
     intervalRef := intervalRef s; mountedRef := mountedRef s;
     timers := timers s; nextTimer := nextTimer s; pending := pending s;
     nextFetch := nextFetch s; live := live s; published := published s |}.

(** [setAccountInfo(info)] *)
Definition setAccountInfo (info : Api.AccountInfo) (s : State) : State :=
  {| accountInfo := Some info; isLoading := isLoading s;
     lastUpdated := lastUpdated s; isConnected := isConnected s;
     updateCount := updateCount s; isRealTimeActive := isRealTimeActive s;
     intervalRef := intervalRef s; mountedRef := mountedRef s;
     timers := timers s; nextTimer := nextTimer s; pending := pending s;
     nextFetch := nextFetch s; live := live s; published := published s |}.

(** [setLastUpdated(new Date())], the clock reading [now] *)
Definition setLastUpdated (now : N) (s : State) : State :=
  {| accountInfo := accountInfo s; isLoading := isLoading s;
     lastUpdated := now; isConnected := isConnected s;
     updateCount := updateCount s; isRealTimeActive := isRealTimeActive s;
     intervalRef := intervalRef s; mountedRef := mountedRef s;
     timers := timers s; nextTimer := nextTimer s; pending := pending s;
     nextFetch := nextFetch s; live := live s; published := published s |}.

(** [setUpdateCount(prev => prev + 1)] *)
Definition incrUpdateCount (s : State) : State :=
  {| accountInfo := accountInfo s; isLoading := isLoading s;
     lastUpdated := lastUpdated s; isConnected := isConnected s;
     updateCount := (updateCount s + 1)%N;
     isRealTimeActive := isRealTimeActive s; intervalRef := intervalRef s;
     mountedRef := mountedRef s; timers := timers s;
     nextTimer := nextTimer s; pending := pending s;
     nextFetch := nextFetch s; live := live s; published := published s |}.

(** [intervalRef.current = v] *)
Definition setIntervalRef (v : option nat) (s : State) : State :=
  {| accountInfo := accountInfo s; isLoading := isLoading s;
     lastUpdated := lastUpdated s; isConnected := isConnected s;
     updateCount := updateCount s; isRealTimeActive := isRealTimeActive s;
     intervalRef := v; mountedRef := mountedRef s; timers := timers s;
     nextTimer := nextTimer s; pending := pending s;
     nextFetch := nextFetch s; live := live s; published := published s |}.

(** [mountedRef.current = v] *)
Definition setMountedRef (v : bool) (s : State) : State :=
  {| accountInfo := accountInfo s; isLoading := isLoading s;
     lastUpdated := lastUpdated s; isConnected := isConnected s;
     updateCount := updateCount s; isRealTimeActive := isRealTimeActive s;
     intervalRef := intervalRef s; mountedRef := v; timers := timers s;
     nextTimer := nextTimer s; pending := pending s;
     nextFetch := nextFetch s; live := live s; published := published s |}.

Definition setTimers (v : gmap nat Interval) (s : State) : State :=
  {| accountInfo := accountInfo s; isLoading := isLoading s;
     lastUpdated := lastUpdated s; isConnected := isConnected s;
     updateCount := updateCount s; isRealTimeActive := isRealTimeActive s;
     intervalRef := intervalRef s; mountedRef := mountedRef s; timers := v;
     nextTimer := nextTimer s; pending := pending s;
     nextFetch := nextFetch s; live := live s; published := published s |}.

Definition setNextTimer (v : nat) (s : State) : State :=
  {| accountInfo := accountInfo s; isLoading := isLoading s;
     lastUpdated := lastUpdated s; isConnected := isConnected s;
     updateCount := updateCount s; isRealTimeActive := isRealTimeActive s;
     intervalRef := intervalRef s; mountedRef := mountedRef s;
     timers := timers s; nextTimer := v; pending := pending s;
     nextFetch := nextFetch s; live := live s; published := published s |}.

Definition setPending (v : gmap nat bool) (s : State) : State :=
  {| accountInfo := accountInfo s; isLoading := isLoading s;
     lastUpdated := lastUpdated s; isConnected := isConnected s;
     updateCount := updateCount s; isRealTimeActive := isRealTimeActive s;
     intervalRef := intervalRef s; mountedRef := mountedRef s;
     timers := timers s; nextTimer := nextTimer s; pending := v;
     nextFetch := nextFetch s; live := live s; published := published s |}.

Definition setNextFetch (v : nat) (s : State) : State :=
  {| accountInfo := accountInfo s; isLoading := isLoading s;
     lastUpdated := lastUpdated s; isConnected := isConnected s;
     updateCount := updateCount s; isRealTimeActive := isRealTimeActive s;
     intervalRef := intervalRef s; mountedRef := mountedRef s;
     timers := timers s; nextTimer := nextTimer s; pending := pending s;
     nextFetch := v; live := live s; published := published s |}.

Definition setLive (v : bool) (s : State) : State :=
  {| accountInfo := accountInfo s; isLoading := isLoading s;
     lastUpdated := lastUpdated s; isConnected := isConnected s;
     updateCount := updateCount s; isRealTimeActive := isRealTimeActive s;
     intervalRef := intervalRef s; mountedRef := mountedRef s;
     timers := timers s; nextTimer := nextTimer s; pending := pending s;
     nextFetch := nextFetch s; live := v; published := published s |}.

Definition setPublished (v : list nat) (s : State) : State :=
  {| accountInfo := accountInfo s; isLoading := isLoading s;
     lastUpdated := lastUpdated s; isConnected := isConnected s;
     updateCount := updateCount s; isRealTimeActive := isRealTimeActive s;
     intervalRef := intervalRef s; mountedRef := mountedRef s;
     timers := timers s; nextTimer := nextTimer s; pending := pending s;
     nextFetch := nextFetch s; live := live s; published := v |}.

(** The initial values of [useState] and [useRef], first rendered at
    time [now]. Interval handles are positive. *)
Definition initial (now : N) : State :=
  {| accountInfo := None; isLoading := true; lastUpdated := now;
     isConnected := true; updateCount := 0; isRealTimeActive := true;
     intervalRef := None; mountedRef := true;
     timers := ∅; nextTimer := 1; pending := ∅; nextFetch := 0;
     live := true; published := [] |}.

Definition clearInterval (h : nat) (s : State) : State :=
  setTimers (delete h (timers s)) s.

Definition setInterval (cb : Interval) (s : State) : nat * State :=
  (nextTimer s,
   setNextTimer (S (nextTimer s)) (setTimers (<[nextTimer s := cb]> (timers s)) s)).

(** fetchAccountInfo up to its [await]: the call to getAccountInfo is
    pending under the next number. *)
Definition fetchAccountInfo (showLoading : bool) (s : State) : State :=
  let s := if showLoading then setIsLoading true s else s in
  setNextFetch (S (nextFetch s))
    (setPending (<[nextFetch s := showLoading]> (pending s)) s).

(** fetchAccountInfo from its [await] on, when call [id] settles with
    [o] at time [now]. *)
Definition fetchAccountInfo_resume (id : nat) (showLoading : bool)
    (o : Outcome Api.AccountInfo) (now : N) (s : State) : State :=
  let s :=
    match o with
    | Returned info =>
        if mountedRef s then
          setPublished (id :: published s)
            (incrUpdateCount
               (setIsConnected true
                  (setLastUpdated now (setAccountInfo info s))))
        else s
    | Threw _ =>
        if mountedRef s then setIsConnected false s else s
    end in
  if mountedRef s && showLoading then setIsLoading false s else s.

(** startRealTimeUpdates of a render in which [isRealTimeActive] is
    [active]. *)
Definition startRealTimeUpdates (active : bool) (s : State) : State :=
  let s :=
    match intervalRef s with
    | Some h => clearInterval h s
    | None => s
    end in
  let '(h, s) := setInterval {| period := 1000; capturedActive := active |} s in
  setIntervalRef (Some h) s.

Definition stopRealTimeUpdates (s : State) : State :=
  match intervalRef s with
  | Some h => setIntervalRef None (clearInterval h s)
  | None => s
  end.

(** The callback of interval [h]. *)
Definition onInterval (h : nat) (s : State) : State :=
  match timers s !! h with
  | Some cb =>
      if mountedRef s && capturedActive cb then fetchAccountInfo false s
      else s
  | None => s
  end.

(** The mount effect and its cleanup. *)
Definition effect_run (s : State) : State :=
  let s := setMountedRef true s in
  let s := fetchAccountInfo true s in
  if isRealTimeActive s then startRealTimeUpdates (isRealTimeActive s) s
  else s.

Definition effect_cleanup (s : State) : State :=
  stopRealTimeUpdates (setMountedRef false s).

(** toggleRealTime: the updater runs with the callbacks of the current
    render, then the new render replaces the mount effect. *)
Definition toggleRealTime (s : State) : State :=
  let prev := isRealTimeActive s in
  let newState := negb prev in
  let s := if newState then startRealTimeUpdates prev s
           else stopRealTimeUpdates s in
  let s := setIsRealTimeActive newState s in
  effect_run (effect_cleanup s).

Definition handleVisibilityChange (hidden : bool) (s : State) : State :=
  if hidden then stopRealTimeUpdates s
  else if isRealTimeActive s then startRealTimeUpdates (isRealTimeActive s) s
  else s.

Inductive Event :=
  | Tick (h : nat)
  | Settle (id : nat) (o : Outcome Api.AccountInfo) (now : N)
  | ToggleClick
  | RefreshClick
  | VisibilityChange (hidden : bool)
  | Unmount.

Definition step (s : State) (e : Event) : State :=
  match e with
  | Tick h => onInterval h s
  | Settle id o now =>
      match pending s !! id with
      | Some showLoading =>
          fetchAccountInfo_resume id showLoading o now
            (setPending (delete id (pending s)) s)
      | None => s
      end
  | ToggleClick => if live s then toggleRealTime s else s
  | RefreshClick =>
      if live s && negb (isLoading s) then fetchAccountInfo true s else s
  | VisibilityChange hidden =>
      if live s then handleVisibilityChange hidden s else s
  | Unmount => if live s then setLive false (effect_cleanup s) else s
  end.

Definition run (s : State) (tr : list Event) : State := fold_left step tr s.

(** The component after its first render and effects. *)
Definition mount (now : N) : State := effect_run (initial now).

(** What the component shows. *)
Definition observable (s : State)
  : option Api.AccountInfo * bool * N * bool * N * bool :=
  (accountInfo s, isLoading s, lastUpdated s, isConnected s, updateCount s,
   isRealTimeActive s).

End Dashboard.

(** ** The notions of the specification *)
Module Spec.
Import JSString JS Api.

(** A string that is empty or holds white space only. *)
Fixpoint allWhite (s : string) : bool :=
  match s with
  | EmptyString => true
  | String a r => isWhiteSpace a && allWhite r
  end.

(** A snapshot is fully populated when no field is [null] or
    [undefined]. *)
Definition populated (info : AccountInfo) : bool :=
  forallb (fun v => negb (nullish v))
    [balance info; equity info; margin info; freeMargin info;
     marginLevel info; currency info; accountNumber info; accountName info;
     serverName info; leverage info; profit info].

(** The parsed body of one source: absent when the status is not 2xx or
    the body does not parse. *)
Definition parsedBody (r : Response) : option Value :=
  if ok r then
    match json r with
    | Returned v => Some v
    | Threw _ => None
    end
  else None.

(** A field of a source: its value in the body when present there (as a
    value other than [null]), the default [d] otherwise. *)
Definition fieldOf (body : option Value) (k : string) (d : Value) : Value :=
  match body with
  | Some (JObject m) =>
      match m !! k with
      | Some v => if nullish v then d else v
      | None => d
      end
  | _ => d
  end.

(** The error message of a response as the specification words it: for
    a JSON content type the [message] field, else the [error] field,
    else the generic string; otherwise the raw text, else the generic
    string. *)
Definition genericMessage (r : Response) : Value :=
  JString ("HTTP Error: " +:+ show (status r)).

Definition statedErrorMessage (r : Response) : Value :=
  if isJson (contentType r) then
    match json r with
    | Returned data =>
        or_else (get_opt data "message")
          (or_else (get_opt data "error") (genericMessage r))
    | Threw _ => genericMessage r
    end
  else
    match text r with
    | Returned t => if nonEmpty t then JString t else genericMessage r
    | Threw _ => genericMessage r
    end.

(** Publication follows initiation: the published fetches, oldest
    first, are in the order in which they were started. *)
Definition inInitiationOrder (s : Dashboard.State) : Prop :=
  StronglySorted lt (rev (Dashboard.published s)).

(** A recurring timer with a period of one second is armed. *)
Definition armed (s : Dashboard.State) : Prop :=
  exists h active,
    Dashboard.intervalRef s = Some h /\
    Dashboard.timers s !! h =
      Some {| Dashboard.period := 1000; Dashboard.capturedActive := active |}.

(** The states the component can be in. *)
Definition reachable (s : Dashboard.State) : Prop :=
  exists now tr, s = Dashboard.run (Dashboard.mount now) tr.

(** The page is hidden, and shown again. *)
Definition hide (s : Dashboard.State) : Dashboard.State :=
  Dashboard.step s (Dashboard.VisibilityChange true).

Definition reveal (s : Dashboard.State) : Dashboard.State :=
  Dashboard.step s (Dashboard.VisibilityChange false).

(** Every live interval is the one [intervalRef] holds. *)
Definition timersOk (s : Dashboard.State) : Prop :=
  forall h cb,
    Dashboard.timers s !! h = Some cb -> Dashboard.intervalRef s = Some h.

(** The component is out of the tree and knows it. *)
Definition gone (s : Dashboard.State) : Prop :=
  Dashboard.live s = false /\ Dashboard.mountedRef s = false.

End Spec.

(** ** Sample data *)
Module Sample.
Import JS Api.

Definition creds : LoginCredentials :=
  {| username := " 5012345 "; password := "secret"; server := "Demo-Server" |}.

Definition plain (st : N) (body : string) : Response :=
  {| status := st; statusText := "OK"; contentType := Some "text/plain";
     text := Returned body;
     json := Threw (ThrowError "SyntaxError" "Unexpected token") |}.

Definition jsonResponse (st : N) (body : string) (v : Value) : Response :=
  {| status := st; statusText := "status";
     contentType := Some "application/json; charset=utf-8";
     text := Returned body; json := Returned v |}.

Definition always (o : Outcome Response) : Network :=
  {| respond := fun _ => o; first_settles_first := true |}.

(** Status 201 with the body [{message: 'Server not found'}]. *)
Definition serverNotFound : Response :=
  jsonResponse 201 "{message: 'Server not found'}"
    (JObject {[ "message" := JString "Server not found" ]}).

(** Status 500 with the body [{}]. *)
Definition emptyObject500 : Response :=
  jsonResponse 500 "{}" (JObject ∅).

(** The summary call fails with status 500, the details call returns
    [{accountNumber: '12345'}]. *)
Definition detailsOnly : Network :=
  {| respond := fun r =>
       if String.eqb (path r) "/api/AccountDetails" then
         Returned (jsonResponse 200 "{accountNumber: '12345'}"
                     (JObject {[ "accountNumber" := JString "12345" ]}))
       else Returned emptyObject500;
     first_settles_first := true |}.

(** The summary call is rejected, the details call succeeds. *)
Definition summaryRejected : Network :=
  {| respond := fun r =>
       if String.eqb (path r) "/api/AccountDetails" then
         Returned (jsonResponse 200 "{accountNumber: '12345'}"
                     (JObject {[ "accountNumber" := JString "12345" ]}))
       else Threw (ThrowTypeError "Failed to fetch");
     first_settles_first := true |}.

Definition snapshotA : AccountInfo := defaultAccountInfo.

Definition snapshotB : AccountInfo :=
  {| balance := JNumber 100; equity := JNumber 100; margin := JNumber 0;
     freeMargin := JNumber 100; marginLevel := JNumber 0;
     currency := JString "EUR"; accountNumber := JString "12345";
     accountName := JString "Demo"; serverName := JString "Demo-Server";
     leverage := JNumber 100; profit := JNumber 0 |}.

(** The first interval fires while the initial fetch is pending; the
    second fetch settles first, the initial one after it. *)
Definition overtaking : list Dashboard.Event :=
  [Dashboard.Tick 1;
   Dashboard.Settle 1 (Returned snapshotB) 1500;
   Dashboard.Settle 0 (Returned snapshotA) 2000].

End Sample.

(** ** [components/LoginForm.tsx]: the checks before a submit *)
Module LoginForm.
Import JSString JS Api.


(** validateForm: the [errors] object it hands to [setFieldErrors], by
    field name, and its result, [Object.keys(errors).length === 0]. *)
Definition validateForm (credentials : LoginCredentials)
  : gmap string string * bool :=
  let errors : gmap string string := ∅ in
  let errors :=
    if negb (nonEmpty (trim (username credentials))) then
      <["username" := "Account number is required"]> errors
    else if negb (test_digits (trim (username credentials))) then
      <["username" := "Account number must be numeric"]> errors
    else errors in
  let errors :=
    if negb (nonEmpty (trim (password credentials))) then
      <["password" := "Password is required"]> errors
    else errors in
  let errors :=
    if negb (nonEmpty (trim (server credentials))) then
      <["server" := "Server is required"]> errors
    else errors in
  (errors, bool_decide (size errors = 0%nat)).


End LoginForm.

(** ** [App.tsx]: the session *)
Module App.
Import JSString JS Api.

(** The four [useState] cells; [error] holds [null] or what was passed to
    [setError]. *)
Record State := {
  isAuthenticated : bool;
  authToken : option string;
  isLoading : bool;
  error : Value
}.

Definition initial : State :=
  {| isAuthenticated := false; authToken := None; isLoading := false;
     error := JNull |}.

(** [response.token] as a condition. *)
Definition truthy_token (t : option string) : bool :=
  match t with
  | Some t => nonEmpty t
  | None => false
  end.

(** handleLogin before its [await]. *)
Definition handleLogin_begin (s : State) : State :=
  {| isAuthenticated := isAuthenticated s; authToken := authToken s;
     isLoading := true; error := JNull |}.

(** The body of the [try] of handleLogin after loginToMT5 has answered. *)
Definition handleLogin_response (response : LoginResponse) (s : State)
  : State :=
  if success response && truthy_token (token response) then
    {| isAuthenticated := true; authToken := token response;
       isLoading := isLoading s; error := error s |}
  else
    {| isAuthenticated := isAuthenticated s; authToken := authToken s;
       isLoading := isLoading s;
       error := or_else (default JUndefined (Api.error response))
                  (JString "Login failed. Please check your credentials.") |}.

Definition handleLogin (net : Network) (credentials : LoginCredentials)
    (s : State) : M State :=
  let s := handleLogin_begin s in
  let* s :=
    try_catch
      (let* response := loginToMT5 net credentials in
       ret (handleLogin_response response s))
      (fun err =>
         let s :=
           {| isAuthenticated := isAuthenticated s; authToken := authToken s;
              isLoading := isLoading s;
              error := JString "An unexpected error occurred. Please try again." |} in
         let* _ := console_error [LStr "Login error:"; LThrown err] in
         ret s) in
  ret {| isAuthenticated := isAuthenticated s; authToken := authToken s;
         isLoading := false; error := error s |}.

Definition handleLogout (s : State) : State :=
  {| isAuthenticated := false; authToken := None; isLoading := isLoading s;
     error := JNull |}.

(** What App renders: the dashboard with its token, or the login form
    with its two props. *)
Inductive Screen :=
  | DashboardScreen (token : string)
  | LoginFormScreen (isLoading : bool) (error : Value).

Definition render (s : State) : Screen :=
  match authToken s with
  | Some t =>
      if isAuthenticated s && nonEmpty t then DashboardScreen t
      else LoginFormScreen (isLoading s) (error s)
  | None => LoginFormScreen (isLoading s) (error s)
  end.

(** What happens to the session: the login form is submitted (handleSubmit
    runs validateForm first), or the dashboard's logout button is
    pressed. *)
Inductive Event :=
  | Submit (credentials : LoginCredentials)
  | Logout.

(** One event, up to the completion of the login it may start. The
    events come from the screen that is rendered; the submit button is
    disabled while [isLoading]. *)
Definition step (net : Network) (s : State) (e : Event) : State :=
  match e, render s with
  | Submit credentials, LoginFormScreen loading _ =>
      if negb loading && snd (LoginForm.validateForm credentials) then
        match result (handleLogin net credentials s) with
        | Returned s' => s'
        | Threw _ => s
        end
      else s
  | Logout, DashboardScreen _ => handleLogout s
  | _, _ => s
  end.

Definition run (net : Network) (s : State) (tr : list Event) : State :=
  fold_left (step net) tr s.

End App.

(** ** The answer of a login, without its effects *)
Module Answer.
Import JSString JS Api.

(** The message the handler of loginToMT5 gives for what was thrown. *)
Definition handlerMessage (e : Thrown) : string :=
  match e with
  | ThrowTypeError _ =>
      "Network connection failed. Please check your internet connection."
  | ThrowError name message =>
      if String.eqb name "AbortError"
      then "Request timeout. Please try again." else message
  | ThrowValue _ => "An unexpected error occurred"
  end.

(** The message handleApiError returns for a response. *)
Definition apiErrorMessage (response : Response) : Value :=
  match result (handleApiError response) with
  | Returned v => v
  | Threw _ => JUndefined
  end.

(** What loginToMT5 returns, by cases on the credentials and on what the
    network does. *)
Definition loginAnswer (net : Network) (credentials : LoginCredentials)
  : LoginResponse :=
  match validateCredentials credentials with
  | Some message => login_failure (JString message)
  | None =>
      match respond net (loginRequest credentials) with
      | Threw e => login_failure (JString (handlerMessage e))
      | Returned response =>
          if (status response =? 200)%N then
            match text response with
            | Threw e => login_failure (JString (handlerMessage e))
            | Returned body =>
                if validateToken body then login_success (trim body)
                else login_failure
                       (JString "Invalid authentication token received")
            end
          else login_failure (apiErrorMessage response)
      end
  end.

End Answer.

(** ** Invariants of the polling logic *)
Module Polling.
Import JS Dashboard.

(** The bookkeeping of fetches: what is counted, what is pending. *)
Definition counted (s : State) : Prop :=
  updateCount s = N.of_nat (length (published s)) /\
  NoDup (published s) /\
  (forall id, In id (published s) ->
     (id < nextFetch s)%nat /\ pending s !! id = None) /\
  (forall id sl, pending s !! id = Some sl -> (id < nextFetch s)%nat) /\
  mountedRef s = live s /\
  (live s = true -> isLoading s = true ->
     exists id, pending s !! id = Some true).

(** Every live interval has the period of one second and a callback
    that closed over a set [isRealTimeActive], and there is one only
    while real-time updates are on and the component is in the tree. *)
Definition ticking (s : State) : Prop :=
  forall h cb,
    timers s !! h = Some cb ->
    cb = {| period := 1000; capturedActive := true |} /\
    isRealTimeActive s = true /\ live s = true.

End Polling.

(** ** Strings: trimming and white space *)
Section StringFacts.
Import JSString Spec.

Lemma trimEnd_keeps_head (a : ascii) (r : string) :
  isWhiteSpace a = false -> nonEmpty (trimEnd (String a r)) = true.
Proof.
  intros Ha. simpl. destruct (trimEnd r); [rewrite Ha|]; reflexivity.
Qed.

Lemma trim_nonEmpty (s : string) : nonEmpty (trim s) = negb (allWhite s).
Proof.
  unfold trim. induction s as [|a r IH]; [reflexivity|].
  cbn [trimStart allWhite]. destruct (isWhiteSpace a) eqn:Ha.
  - exact IH.
  - now rewrite trimEnd_keeps_head.
Qed.

Lemma trim_empty_iff (s : string) :
  trim s = EmptyString <-> allWhite s = true.
Proof.
  pose proof (trim_nonEmpty s) as H.
  destruct (trim s), (allWhite s); simpl in H; split; intros E;
    congruence.
Qed.

End StringFacts.

(** ** The effect monad *)
Section MonadFacts.
Import JS.
Context {A B : Type}.

Lemma bind_returned (m : M A) (f : A -> M B) (a : A) (l : list Event) :
  m = (Returned a, l) ->
  bind m f = (result (f a), (l ++ effects (f a))%list).
Proof. intros ->. unfold bind. now destruct (f a). Qed.

Lemma bind_threw (m : M A) (f : A -> M B) (e : Thrown) (l : list Event) :
  m = (Threw e, l) -> bind m f = (Threw e, l).
Proof. now intros ->. Qed.

Lemma try_catch_returned (m : M A) (h : Thrown -> M A) (a : A) l :
  m = (Returned a, l) -> try_catch m h = (Returned a, l).
Proof. now intros ->. Qed.

Lemma try_catch_threw (m : M A) (h : Thrown -> M A) (e : Thrown) l :
  m = (Threw e, l) ->
  try_catch m h = (result (h e), (l ++ effects (h e))%list).
Proof. intros ->. unfold try_catch. now destruct (h e). Qed.

End MonadFacts.

(** ** handleApiError and loginToMT5 *)
Section LoginFacts.
Import JSString JS Api Spec.
Variable net : Network.
Variable credentials : LoginCredentials.

(** handleApiError catches whatever its body throws. *)
Lemma handleApiError_returns (r : Response) :
  exists v, handleApiError r = (Returned v, []).
Proof.
  unfold handleApiError.
  destruct (isJson (contentType r)).
  - destruct (json r) as [data|e]; [|eexists; reflexivity].
    destruct data; cbn; try (eexists; reflexivity).
    destruct (truthy (default JUndefined (m !! "message")));
      eexists; reflexivity.
  - destruct (text r) as [t|e]; eexists; reflexivity.
Qed.

(** With valid credentials the one request of a login is issued, and a
    response other than 200 goes through handleApiError. *)
Lemma login_not_200 (response : Response) :
  validateCredentials credentials = None ->
  respond net (loginRequest credentials) = Returned response ->
  status response <> 200%N ->
  exists v,
    handleApiError response = (Returned v, []) /\
    loginToMT5 net credentials =
      (Returned (login_failure v), [Fetch (loginRequest credentials)]).
Proof.
  intros Hv Hr Hs.
  destruct (handleApiError_returns response) as [v Hh].
  exists v. split; [exact Hh|].
  unfold loginToMT5. rewrite Hv. cbn [truthy_message].
  unfold fetch. rewrite Hr.
  apply N.eqb_neq in Hs.
  cbv beta iota delta [bind]. rewrite Hs, andb_false_r, Hh.
  reflexivity.
Qed.

(** C1. When the login response has status exactly 200, the whole body
    is the candidate token and validateToken decides: the login succeeds
    with the trimmed body as the token when the validator accepts the
    body, and fails with the bad-token message when it does not. *)
Theorem login_status_200 (response : Response) (body : string) :
  validateCredentials credentials = None ->
  respond net (loginRequest credentials) = Returned response ->
  status response = 200%N ->
  text response = Returned body ->
  loginToMT5 net credentials =
    (Returned
       (if validateToken body then
          {| success := true; token := Some (trim body); error := None |}
        else
          {| success := false; token := None;
             error := Some (JString "Invalid authentication token received") |}),
     [Fetch (loginRequest credentials)]).
Proof.
  intros Hv Hr Hs Ht.
  unfold loginToMT5. rewrite Hv. cbn [truthy_message].
  unfold fetch, ok. rewrite Hr.
  cbv beta iota delta [bind]. rewrite Hs, Ht.
  change (200 <=? 200)%N with true. change (200 <=? 299)%N with true.
  change (200 =? 200)%N with true. cbn [andb lift].
  destruct (validateToken body); reflexivity.
Qed.

(** C4. Credential validation reports the first applicable error in the
    order username, password, server, then the numeric check on the
    trimmed username, and no error otherwise; a login whose validation
    fails returns that message and has no effect at all, so it issues
    no request. *)
Theorem validateCredentials_first_error :
  let u := trim (username credentials) in
  let p := trim (password credentials) in
  let sv := trim (server credentials) in
  (u = EmptyString ->
     validateCredentials credentials = Some "Username is required") /\
  (u <> EmptyString -> p = EmptyString ->
     validateCredentials credentials = Some "Password is required") /\
  (u <> EmptyString -> p <> EmptyString -> sv = EmptyString ->
     validateCredentials credentials = Some "Server is required") /\
  (u <> EmptyString -> p <> EmptyString -> sv <> EmptyString ->
   test_digits u = false ->
     validateCredentials credentials =
       Some "Username must be a valid account number (numeric)") /\
  (u <> EmptyString -> p <> EmptyString -> sv <> EmptyString ->
   test_digits u = true ->
     validateCredentials credentials = None) /\
  (forall message,
     validateCredentials credentials = Some message ->
     loginToMT5 net credentials =
       (Returned {| success := false; token := None;
                    error := Some (JString message) |}, [])).
Proof.
  cbv zeta. unfold validateCredentials.
  destruct (trim (username credentials)) as [|a u] eqn:Eu;
    destruct (trim (password credentials)) as [|b p] eqn:Ep;
    destruct (trim (server credentials)) as [|c sv] eqn:Es;
    cbn [nonEmpty negb];
    repeat split; try congruence;
    try (intros; destruct (test_digits (String a u)); cbn; congruence);
    intros message Hm; unfold loginToMT5, validateCredentials;
    rewrite ?Eu, ?Ep, ?Es; cbn [nonEmpty negb];
    try (destruct (test_digits (String a u)); cbn [negb] in *; try discriminate);
    injection Hm as <-; reflexivity.
Qed.

(** C5, as the code has it. A login response with a status other than
    200 makes the login fail with a message taken from the response: for
    a JSON content type, the [message] field of the body if it is truthy,
    else its [error] field if that is truthy, else the string "API
    Error: " with the status; for another content type, the raw text if
    it is not empty, else "HTTP Error: " with the status; and when the
    body cannot be read or parsed, or parses to [null], "Network Error: "
    with the status and the status text. A 201 response with the JSON
    body [{"message": "Server not found"}] gives "Server not found". *)
Theorem login_error_message (response : Response) :
  validateCredentials credentials = None ->
  respond net (loginRequest credentials) = Returned response ->
  status response <> 200%N ->
  exists message,
    loginToMT5 net credentials =
      (Returned {| success := false; token := None; error := Some message |},
       [Fetch (loginRequest credentials)]) /\
    (isJson (contentType response) = true ->
     forall data, json response = Returned data -> nullish data = false ->
       message =
         or_else (get_opt data "message")
           (or_else (get_opt data "error")
              (JString ("API Error: " +:+ show (status response))))) /\
    (isJson (contentType response) = false ->
     forall t, text response = Returned t ->
       message =
         JString (if nonEmpty t then t
                  else "HTTP Error: " +:+ show (status response))) /\
    ((isJson (contentType response) = true /\
      ((exists e, json response = Threw e) \/
       (exists data, json response = Returned data /\ nullish data = true)))
     \/ (isJson (contentType response) = false /\
         exists e, text response = Threw e) ->
       message =
         JString ("Network Error: " +:+ show (status response) +:+ " "
                  +:+ statusText response)) /\
    (status response = 201%N ->
     isJson (contentType response) = true ->
     json response =
       Returned (JObject {[ "message" := JString "Server not found" ]}) ->
       message = JString "Server not found").
Proof.
  intros Hv Hr Hs.
  destruct (login_not_200 response Hv Hr Hs) as (message & Hh & Hl).
  exists message. split; [exact Hl|].
  unfold handleApiError in Hh.
  assert (Hobj : forall data, nullish data = false ->
    try_catch
      (bind (lift (Returned data))
         (fun errorData =>
            bind (lift (get errorData "message"))
              (fun m =>
                 if truthy m then ret m
                 else
                   bind (lift (get errorData "error"))
                     (fun err =>
                        ret (or_else err
                               (JString ("API Error: "
                                         +:+ show (status response))))))))
      (fun _ =>
         ret (JString ("Network Error: " +:+ show (status response) +:+ " "
                       +:+ statusText response)))
    = (Returned
         (or_else (get_opt data "message")
            (or_else (get_opt data "error")
               (JString ("API Error: " +:+ show (status response))))), [])).
  { intros data Hn. unfold or_else.
    destruct data; try discriminate; cbn;
      try destruct (truthy (default JUndefined (m !! "message")));
      reflexivity. }
  repeat split.
  - intros Hj data Hd Hn. rewrite Hj, Hd, (Hobj data Hn) in Hh. congruence.
  - intros Hj t Ht. rewrite Hj, Ht in Hh. cbn in Hh. congruence.
  - intros [(Hj & [(e & He) | (data & Hd & Hn)]) | (Hj & e & He)];
      rewrite Hj in Hh.
    + rewrite He in Hh. cbn in Hh. congruence.
    + rewrite Hd in Hh. destruct data; try discriminate; cbn in Hh; congruence.
    + rewrite He in Hh. cbn in Hh. congruence.
  - intros _ Hj Hd. rewrite Hj, Hd in Hh. vm_compute in Hh. congruence.
Qed.

End LoginFacts.

(** ** Concrete logins *)
Section LoginExamples.
Import JSString JS Api Spec Sample.

Lemma login_status_200_witness :
  loginToMT5 (always (Returned (plain 200 "error: invalid user"))) creds =
    (Returned {| success := false; token := None;
                 error := Some (JString "Invalid authentication token received") |},
     [Fetch (loginRequest creds)]).
Proof.
  apply (login_status_200 (always (Returned (plain 200 "error: invalid user")))
           creds (plain 200 "error: invalid user") "error: invalid user");
    reflexivity.
Defined.

Lemma validateCredentials_first_error_witness :
  loginToMT5 (always (Returned (plain 200 "a1b2c3d4e5f6")))
    {| username := "  "; password := "secret"; server := "Demo" |} =
    (Returned {| success := false; token := None;
                 error := Some (JString "Username is required") |}, []).
Proof.
  pose proof (validateCredentials_first_error
                (always (Returned (plain 200 "a1b2c3d4e5f6")))
                {| username := "  "; password := "secret"; server := "Demo" |})
    as (Hu & _ & _ & _ & _ & Hlogin).
  apply Hlogin. apply Hu. reflexivity.
Defined.

(** C5 as stated fails: for a JSON error body without [message] and
    [error] the code answers "API Error: 500", not the "HTTP Error:
    500" the claim gives for that case. *)
Lemma login_error_message_counterexample :
  validateCredentials creds = None /\
  status emptyObject500 <> 200%N /\
  statedErrorMessage emptyObject500 = JString "HTTP Error: 500" /\
  result (loginToMT5 (always (Returned emptyObject500)) creds) =
    Returned (login_failure (JString "API Error: 500")) /\
  result (loginToMT5 (always (Returned emptyObject500)) creds) <>
    Returned (login_failure (statedErrorMessage emptyObject500)).
Proof.
  repeat split; try reflexivity; vm_compute; discriminate.
Qed.

Lemma login_error_message_witness :
  exists message,
    loginToMT5 (always (Returned serverNotFound)) creds =
      (Returned {| success := false; token := None; error := Some message |},
       [Fetch (loginRequest creds)]) /\
    message = JString "Server not found".
Proof.
  destruct (login_error_message (always (Returned serverNotFound)) creds
              serverNotFound)
    as (message & Hl & _ & _ & _ & H201).
  - reflexivity.
  - reflexivity.
  - discriminate.
  - exists message. split; [exact Hl|].
    apply H201; reflexivity.
Defined.

(** C9. A status-200 body can pass validateToken, whose length check
    sees the untrimmed body, and yet yield a token of fewer than 10
    characters: the body of three letters between seven spaces has
    length 10, the login succeeds, and the token handed back is the
    trimmed body, of length 3, which validateToken itself rejects. *)
Theorem short_token_issued :
  exists body : string,
    validateCredentials creds = None /\
    status (plain 200 body) = 200%N /\
    text (plain 200 body) = Returned body /\
    String.length body = 10%nat /\
    validateToken body = true /\
    exists t : string,
      result (loginToMT5 (always (Returned (plain 200 body))) creds) =
        Returned {| success := true; token := Some t; error := None |} /\
      t = trim body /\
      (String.length t < 10)%nat /\
      validateToken t = false.
Proof.
  exists "   abc    ". repeat split.
  exists "abc". repeat split. vm_compute. lia.
Qed.

End LoginExamples.

(** ** getAccountInfo *)
Section SnapshotFacts.
Import JSString JS Api Spec.
Variable net : Network.
Variable token : string.

Lemma coalesce_fieldOf (body : option Value) (k : string) (d : Value) :
  coalesce (get_opt (default (JObject ∅) body) k) d = fieldOf body k d.
Proof.
  destruct body as [[]|]; cbn; try reflexivity.
  destruct (m !! k) as [v|]; reflexivity.
Qed.

Lemma coalesce_not_nullish (v d : Value) :
  nullish d = false -> nullish (coalesce v d) = false.
Proof. intros Hd. unfold coalesce. now destruct (nullish v) eqn:E. Qed.

Lemma combine_populated (summaryData detailsData : Value) :
  populated (combine summaryData detailsData) = true.
Proof.
  unfold populated, combine. cbn [forallb balance equity margin freeMargin
    marginLevel currency accountNumber accountName serverName leverage
    profit defaultAccountInfo].
  rewrite !coalesce_not_nullish; reflexivity.
Qed.

(** A source never throws: its data is the parsed body, or the empty
    object when the source is absent. *)
Lemma readSource_returns (what : string) (r : Response) :
  exists l,
    readSource what r = (Returned (default (JObject ∅) (parsedBody r)), l) /\
    requests l = [].
Proof.
  unfold readSource, parsedBody. destruct (ok r).
  - destruct (json r); eexists; split; reflexivity.
  - eexists; split; reflexivity.
Qed.

(** The [try] block either throws what the joint await throws, or
    returns the combination of the two sources. *)
Lemma getAccountInfo_try_cases :
  (exists e,
      (respond net (summaryRequest token) = Threw e \/
       respond net (detailsRequest token) = Threw e) /\
      result (getAccountInfo_try net token) = Threw e) \/
  (exists sr dr,
      respond net (summaryRequest token) = Returned sr /\
      respond net (detailsRequest token) = Returned dr /\
      result (getAccountInfo_try net token) =
        Returned (combine (default (JObject ∅) (parsedBody sr))
                    (default (JObject ∅) (parsedBody dr)))).
Proof.
  unfold getAccountInfo_try, fetch_all2.
  destruct (respond net (summaryRequest token)) as [sr|e1] eqn:E1,
           (respond net (detailsRequest token)) as [dr|e2] eqn:E2.
  - right. exists sr, dr. repeat split.
    destruct (readSource_returns "summary" sr) as (l1 & H1 & _).
    destruct (readSource_returns "details" dr) as (l2 & H2 & _).
    cbv beta iota delta [bind]. rewrite H1, H2. reflexivity.
  - left. exists e2. split; [now right | reflexivity].
  - left. exists e1. split; [now left | reflexivity].
  - left. destruct (first_settles_first net).
    + exists e1. split; [now left | reflexivity].
    + exists e2. split; [now right | reflexivity].
Qed.

Lemma getAccountInfo_caught (e : Thrown) :
  result (getAccountInfo_try net token) = Threw e ->
  result (getAccountInfo net token) = Returned defaultAccountInfo.
Proof.
  intros H. unfold getAccountInfo.
  destruct (negb (nonEmpty (trim token))); [reflexivity|].
  destruct (getAccountInfo_try net token) as [o l]. cbn in H. subst o.
  reflexivity.
Qed.

Lemma getAccountInfo_passes (info : AccountInfo) :
  allWhite token = false ->
  result (getAccountInfo_try net token) = Returned info ->
  result (getAccountInfo net token) = Returned info.
Proof.
  intros Hw H. unfold getAccountInfo.
  rewrite trim_nonEmpty, Hw. cbn [negb].
  destruct (getAccountInfo_try net token) as [o l]. cbn in H. subst o.
  reflexivity.
Qed.

(** C2. getAccountInfo always returns, and what it returns is a fully
    populated snapshot; for an empty or white-space-only token it
    returns the all-defaults snapshot having issued no request; and
    when an exception leaves its [try] block it returns the all-defaults
    snapshot as well. *)
Theorem getAccountInfo_total :
  (exists info,
      result (getAccountInfo net token) = Returned info /\
      populated info = true) /\
  (allWhite token = true ->
     result (getAccountInfo net token) =
       Returned {| balance := JNumber 0; equity := JNumber 0;
                   margin := JNumber 0; freeMargin := JNumber 0;
                   marginLevel := JNumber 0; currency := JString "USD";
                   accountNumber := JString "N/A";
                   accountName := JString "N/A";
                   serverName := JString "N/A";
                   leverage := JNumber 0; profit := JNumber 0 |} /\
     requests (effects (getAccountInfo net token)) = []) /\
  (forall e,
     result (getAccountInfo_try net token) = Threw e ->
     result (getAccountInfo net token) =
       Returned {| balance := JNumber 0; equity := JNumber 0;
                   margin := JNumber 0; freeMargin := JNumber 0;
                   marginLevel := JNumber 0; currency := JString "USD";
                   accountNumber := JString "N/A";
                   accountName := JString "N/A";
                   serverName := JString "N/A";
                   leverage := JNumber 0; profit := JNumber 0 |}).
Proof.
  split; [|split].
  - destruct (allWhite token) eqn:Hw.
    + exists defaultAccountInfo. split; [|reflexivity].
      unfold getAccountInfo. now rewrite trim_nonEmpty, Hw.
    + destruct getAccountInfo_try_cases as [(e & _ & H) | (sr & dr & _ & _ & H)].
      * exists defaultAccountInfo. split; [|reflexivity].
        now apply getAccountInfo_caught with e.
      * eexists. split; [apply getAccountInfo_passes; [exact Hw | exact H]|].
        apply combine_populated.
  - intros Hw. unfold getAccountInfo. rewrite trim_nonEmpty, Hw.
    split; reflexivity.
  - exact getAccountInfo_caught.
Qed.

(** C3. When both responses arrive, every field of the snapshot comes
    from its own source: a summary field is the value of that field in
    the summary body when present there and the fixed default
    otherwise, a details field likewise from the details body; so when
    the summary status is not 2xx and the details body is
    [{"accountNumber": "12345"}], the snapshot has that account number
    and the default in every other field. *)
Theorem snapshot_merge (sr dr : Response) :
  allWhite token = false ->
  respond net (summaryRequest token) = Returned sr ->
  respond net (detailsRequest token) = Returned dr ->
  exists info,
    result (getAccountInfo net token) = Returned info /\
    balance info = fieldOf (parsedBody sr) "balance" (JNumber 0) /\
    equity info = fieldOf (parsedBody sr) "equity" (JNumber 0) /\
    margin info = fieldOf (parsedBody sr) "margin" (JNumber 0) /\
    freeMargin info = fieldOf (parsedBody sr) "freeMargin" (JNumber 0) /\
    marginLevel info = fieldOf (parsedBody sr) "marginLevel" (JNumber 0) /\
    currency info = fieldOf (parsedBody sr) "currency" (JString "USD") /\
    profit info = fieldOf (parsedBody sr) "profit" (JNumber 0) /\
    accountNumber info =
      fieldOf (parsedBody dr) "accountNumber" (JString "N/A") /\
    accountName info = fieldOf (parsedBody dr) "accountName" (JString "N/A") /\
    serverName info = fieldOf (parsedBody dr) "serverName" (JString "N/A") /\
    leverage info = fieldOf (parsedBody dr) "leverage" (JNumber 0) /\
    (ok sr = false -> ok dr = true ->
     json dr = Returned (JObject {[ "accountNumber" := JString "12345" ]}) ->
     info = {| balance := JNumber 0; equity := JNumber 0;
               margin := JNumber 0; freeMargin := JNumber 0;
               marginLevel := JNumber 0; currency := JString "USD";
               accountNumber := JString "12345";
               accountName := JString "N/A";
               serverName := JString "N/A";
               leverage := JNumber 0; profit := JNumber 0 |}).
Proof.
  intros Hw Hs Hd.
  destruct getAccountInfo_try_cases
    as [(e & [He | He] & _) | (sr' & dr' & Hs' & Hd' & H)];
    try congruence.
  assert (sr' = sr) as -> by congruence.
  assert (dr' = dr) as -> by congruence.
  eexists. split; [apply getAccountInfo_passes; eassumption|].
  unfold combine.
  cbn [balance equity margin freeMargin marginLevel currency accountNumber
       accountName serverName leverage profit defaultAccountInfo].
  rewrite !coalesce_fieldOf. repeat split.
  intros Hsr Hdr Hj. unfold parsedBody. rewrite Hsr, Hdr, Hj.
  reflexivity.
Qed.

(** C10. A request rejected at the transport level is not tolerated
    like a bad status or an unparsable body: when either of the two
    requests is rejected, whatever the other one brings, both having
    been issued, getAccountInfo returns the all-defaults snapshot. *)
Theorem transport_failure_defaults (e : Thrown) :
  allWhite token = false ->
  respond net (summaryRequest token) = Threw e \/
  respond net (detailsRequest token) = Threw e ->
  (exists e', result (getAccountInfo_try net token) = Threw e') /\
  result (getAccountInfo net token) = Returned defaultAccountInfo /\
  requests (effects (getAccountInfo net token)) =
    [summaryRequest token; detailsRequest token].
Proof.
  intros Hw Hrej.
  assert (Ht : exists e', getAccountInfo_try net token =
                 (Threw e', [Fetch (summaryRequest token);
                             Fetch (detailsRequest token)])).
  { unfold getAccountInfo_try, fetch_all2.
    destruct Hrej as [H | H]; rewrite H.
    - destruct (respond net (detailsRequest token));
        [|destruct (first_settles_first net)]; eexists; reflexivity.
    - destruct (respond net (summaryRequest token));
        [|destruct (first_settles_first net)]; eexists; reflexivity. }
  destruct Ht as (e' & Ht). split; [exists e'; now rewrite Ht|].
  unfold getAccountInfo. rewrite trim_nonEmpty, Hw, Ht.
  split; reflexivity.
Qed.

End SnapshotFacts.

(** ** The polling logic of the dashboard *)
Section DashboardFacts.
Import JS Dashboard Spec.

(** A property that every step keeps holds along every run. *)
Lemma run_invariant (P : State -> Prop) :
  (forall s e, P s -> P (step s e)) ->
  forall tr s, P s -> P (run s tr).
Proof.
  intros Hstep tr. unfold run.
  induction tr as [|e tr IH]; intros s Hs; cbn; [exact Hs|].
  apply IH, Hstep, Hs.
Qed.

Lemma run_app (s : State) (tr1 tr2 : list Event) :
  run s (tr1 ++ tr2) = run (run s tr1) tr2.
Proof. apply fold_left_app. Qed.

(** *** Intervals *)

Lemma stop_clears (s : State) :
  timersOk s ->
  timers (stopRealTimeUpdates s) = ∅ /\
  intervalRef (stopRealTimeUpdates s) = None.
Proof.
  intros Hok. unfold stopRealTimeUpdates.
  destruct (intervalRef s) as [h|] eqn:Hi; cbn; split; try reflexivity.
  - apply map_empty. intros h'.
    destruct (decide (h = h')) as [<-|Hne].
    + apply lookup_delete_eq.
    + rewrite lookup_delete_ne by exact Hne.
      destruct (timers s !! h') as [cb|] eqn:Hl; [|reflexivity].
      apply Hok in Hl. congruence.
  - apply map_empty. intros h'.
    destruct (timers s !! h') as [cb|] eqn:Hl; [|reflexivity].
    apply Hok in Hl. congruence.
  - exact Hi.
Qed.

Lemma start_arms (active : bool) (s : State) :
  timersOk s ->
  intervalRef (startRealTimeUpdates active s) = Some (nextTimer s) /\
  timers (startRealTimeUpdates active s) =
    {[ nextTimer s := {| period := 1000; capturedActive := active |} ]}.
Proof.
  intros Hok. unfold startRealTimeUpdates.
  destruct (stop_clears s Hok) as [Ht _]. unfold stopRealTimeUpdates in Ht.
  destruct (intervalRef s) as [h|]; cbn in *; rewrite Ht;
    split; reflexivity.
Qed.

Lemma timersOk_stop (s : State) :
  timersOk s -> timersOk (stopRealTimeUpdates s).
Proof.
  intros Hok h cb. destruct (stop_clears s Hok) as [-> _].
  now rewrite lookup_empty.
Qed.

Lemma timersOk_start (active : bool) (s : State) :
  timersOk s -> timersOk (startRealTimeUpdates active s).
Proof.
  intros Hok h cb. destruct (start_arms active s Hok) as [-> ->].
  intros [<- _]%lookup_singleton_Some. reflexivity.
Qed.

(** Steps that leave the intervals alone. *)
Lemma timersOk_same (s s' : State) :
  timers s' = timers s -> intervalRef s' = intervalRef s ->
  timersOk s -> timersOk s'.
Proof. unfold timersOk. intros -> ->. auto. Qed.

Lemma fetchAccountInfo_intervals (showLoading : bool) (s : State) :
  timers (fetchAccountInfo showLoading s) = timers s /\
  intervalRef (fetchAccountInfo showLoading s) = intervalRef s /\
  mountedRef (fetchAccountInfo showLoading s) = mountedRef s /\
  live (fetchAccountInfo showLoading s) = live s /\
  isRealTimeActive (fetchAccountInfo showLoading s) = isRealTimeActive s.
Proof. destruct showLoading; repeat split. Qed.

Lemma resume_intervals id showLoading o now (s : State) :
  timers (fetchAccountInfo_resume id showLoading o now s) = timers s /\
  intervalRef (fetchAccountInfo_resume id showLoading o now s)
    = intervalRef s /\
  mountedRef (fetchAccountInfo_resume id showLoading o now s)
    = mountedRef s /\
  live (fetchAccountInfo_resume id showLoading o now s) = live s /\
  isRealTimeActive (fetchAccountInfo_resume id showLoading o now s)
    = isRealTimeActive s.
Proof.
  unfold fetchAccountInfo_resume.
  destruct o, (mountedRef s) eqn:Hm, showLoading; cbn; rewrite ?Hm; cbn;
    repeat split; assumption.
Qed.

Lemma start_flags (active : bool) (s : State) :
  mountedRef (startRealTimeUpdates active s) = mountedRef s /\
  live (startRealTimeUpdates active s) = live s /\
  isRealTimeActive (startRealTimeUpdates active s) = isRealTimeActive s.
Proof.
  unfold startRealTimeUpdates. destruct (intervalRef s); repeat split.
Qed.

Lemma stop_flags (s : State) :
  mountedRef (stopRealTimeUpdates s) = mountedRef s /\
  live (stopRealTimeUpdates s) = live s /\
  isRealTimeActive (stopRealTimeUpdates s) = isRealTimeActive s.
Proof.
  unfold stopRealTimeUpdates. destruct (intervalRef s); repeat split.
Qed.

Lemma timersOk_fetch (showLoading : bool) (s : State) :
  timersOk s -> timersOk (fetchAccountInfo showLoading s).
Proof.
  destruct (fetchAccountInfo_intervals showLoading s) as (Ht & Hi & _).
  now apply timersOk_same.
Qed.

Lemma timersOk_resume id showLoading o now (s : State) :
  timersOk s -> timersOk (fetchAccountInfo_resume id showLoading o now s).
Proof.
  destruct (resume_intervals id showLoading o now s) as (Ht & Hi & _).
  now apply timersOk_same.
Qed.

Lemma timersOk_effect_run (s : State) :
  timersOk s -> timersOk (effect_run s).
Proof.
  intros Hok. unfold effect_run.
  assert (Hf : timersOk (fetchAccountInfo true (setMountedRef true s)))
    by now apply timersOk_fetch.
  destruct (isRealTimeActive _); [now apply timersOk_start | exact Hf].
Qed.

Lemma timersOk_effect_cleanup (s : State) :
  timersOk s -> timersOk (effect_cleanup s).
Proof. intros Hok. now apply (timersOk_stop (setMountedRef false s)). Qed.

Lemma timersOk_step (s : State) (e : Event) :
  timersOk s -> timersOk (step s e).
Proof.
  intros Hok. destruct e as [h|id o now| | |hidden|]; cbn [step].
  - unfold onInterval. destruct (timers s !! h); [|exact Hok].
    destruct (mountedRef s && capturedActive _); [|exact Hok].
    now apply timersOk_fetch.
  - destruct (pending s !! id) as [sl|]; [|exact Hok].
    now apply timersOk_resume.
  - destruct (live s); [|exact Hok]. unfold toggleRealTime.
    apply timersOk_effect_run, timersOk_effect_cleanup.
    destruct (negb (isRealTimeActive s)).
    + now apply (timersOk_start (isRealTimeActive s) s).
    + now apply (timersOk_stop s).
  - destruct (live s && negb (isLoading s)); [|exact Hok].
    now apply timersOk_fetch.
  - destruct (live s); [|exact Hok]. unfold handleVisibilityChange.
    destruct hidden; [now apply timersOk_stop|].
    destruct (isRealTimeActive s); [now apply timersOk_start | exact Hok].
  - destruct (live s); [|exact Hok].
    now apply (timersOk_effect_cleanup s).
Qed.

(** *** The mounted flag *)

Lemma effect_run_flags (s : State) :
  mountedRef (effect_run s) = true /\ live (effect_run s) = live s /\
  isRealTimeActive (effect_run s) = isRealTimeActive s.
Proof.
  destruct s as [? ? ? ? ? active interval ? ? ? ? ? ? ?].
  unfold effect_run, fetchAccountInfo, startRealTimeUpdates. cbn.
  destruct active, interval; repeat split.
Qed.

Lemma effect_cleanup_flags (s : State) :
  mountedRef (effect_cleanup s) = false /\
  live (effect_cleanup s) = live s /\
  isRealTimeActive (effect_cleanup s) = isRealTimeActive s.
Proof.
  unfold effect_cleanup.
  destruct (stop_flags (setMountedRef false s)) as (-> & -> & ->).
  repeat split.
Qed.

Lemma mounted_step (s : State) (e : Event) :
  mountedRef s = live s -> mountedRef (step s e) = live (step s e).
Proof.
  intros Hm. destruct e as [h|id o now| | |hidden|]; cbn [step].
  - unfold onInterval. destruct (timers s !! h); [|exact Hm].
    destruct (mountedRef s && capturedActive _); [|exact Hm].
    now destruct (fetchAccountInfo_intervals false s) as (_ & _ & -> & -> & _).
  - destruct (pending s !! id) as [sl|]; [|exact Hm].
    now destruct (resume_intervals id sl o now
                    (setPending (delete id (pending s)) s))
      as (_ & _ & -> & -> & _).
  - destruct (live s) eqn:Hl; [|congruence]. unfold toggleRealTime.
    destruct (effect_run_flags
                (effect_cleanup
                   (setIsRealTimeActive (negb (isRealTimeActive s))
                      (if negb (isRealTimeActive s)
                       then startRealTimeUpdates (isRealTimeActive s) s
                       else stopRealTimeUpdates s)))) as (-> & -> & _).
    destruct (effect_cleanup_flags
                (setIsRealTimeActive (negb (isRealTimeActive s))
                   (if negb (isRealTimeActive s)
                    then startRealTimeUpdates (isRealTimeActive s) s
                    else stopRealTimeUpdates s))) as (_ & -> & _).
    cbn [live setIsRealTimeActive].
    destruct (negb (isRealTimeActive s)).
    + destruct (start_flags (isRealTimeActive s) s) as (_ & -> & _).
      congruence.
    + destruct (stop_flags s) as (_ & -> & _). congruence.
  - destruct (live s && negb (isLoading s)); [|exact Hm].
    now destruct (fetchAccountInfo_intervals true s) as (_ & _ & -> & -> & _).
  - destruct (live s) eqn:Hl; [|congruence]. unfold handleVisibilityChange.
    destruct hidden.
    + destruct (stop_flags s) as (-> & -> & _). congruence.
    + destruct (isRealTimeActive s); [|congruence].
      destruct (start_flags true s) as (-> & -> & _). congruence.
  - destruct (live s) eqn:Hl; [|congruence].
    cbn [mountedRef live setLive].
    now destruct (effect_cleanup_flags s) as (-> & _).
Qed.

(** In every state the component reaches, the intervals are in order
    and the mounted flag tells whether the component is in the tree. *)
Lemma reachable_invariant (s : State) :
  reachable s -> timersOk s /\ mountedRef s = live s.
Proof.
  intros (now & tr & ->).
  apply (run_invariant (fun s => timersOk s /\ mountedRef s = live s)).
  - intros s e [Hok Hm]. split; [now apply timersOk_step | now apply mounted_step].
  - split; [|reflexivity].
    apply timersOk_effect_run. intros h cb. cbn. now rewrite lookup_empty.
Qed.

(** *** After the teardown *)

Lemma gone_step (s : State) (e : Event) :
  gone s ->
  gone (step s e) /\
  observable (step s e) = observable s /\
  published (step s e) = published s.
Proof.
  intros [Hl Hm]. unfold gone.
  destruct e as [h|id o now| | |hidden|]; cbn [step]; rewrite ?Hl; cbn [andb];
    try (repeat split; assumption).
  - unfold onInterval. destruct (timers s !! h); rewrite ?Hm; cbn [andb];
      repeat split; assumption.
  - destruct (pending s !! id) as [sl|]; [|repeat split; assumption].
    unfold fetchAccountInfo_resume. cbn [mountedRef setPending].
    rewrite Hm. destruct o; cbn; rewrite ?Hm; cbn; repeat split; assumption.
Qed.

Lemma gone_run (tr : list Event) (s : State) :
  gone s ->
  gone (run s tr) /\
  observable (run s tr) = observable s /\
  published (run s tr) = published s.
Proof.
  unfold run. revert s.
  induction tr as [|e tr IH]; intros s Hg; cbn;
    [split; [exact Hg | split; reflexivity]|].
  destruct (gone_step s e Hg) as (Hg' & Ho & Hp).
  destruct (IH _ Hg') as (Hg'' & Ho' & Hp').
  split; [exact Hg''|split; congruence].
Qed.

Lemma unmount_gone (s : State) : live s = true -> gone (step s Unmount).
Proof.
  intros Hl. cbn [step]. rewrite Hl. split; [reflexivity|].
  cbn [mountedRef setLive]. now destruct (effect_cleanup_flags s) as (-> & _).
Qed.

Lemma observable_fields (s s' : State) :
  observable s = observable s' ->
  accountInfo s = accountInfo s' /\ isLoading s = isLoading s' /\
  lastUpdated s = lastUpdated s' /\ isConnected s = isConnected s' /\
  updateCount s = updateCount s' /\
  isRealTimeActive s = isRealTimeActive s'.
Proof. unfold observable. intros H. injection H. auto 10. Qed.

(** C6. Once the component is unmounted nothing is published any more:
    whatever happens afterwards (pending fetches settling, intervals,
    clicks, visibility changes), the observable state and the record of
    publications stay as the unmount left them. In particular, when the
    component is unmounted right after its mount, the initial fetch is
    still pending and its settlement changes nothing. *)
Theorem no_publication_after_unmount :
  (forall (s : State) (tr : list Event),
      live s = true ->
      observable (run (step s Unmount) tr) = observable (step s Unmount) /\
      accountInfo (run (step s Unmount) tr) = accountInfo s /\
      lastUpdated (run (step s Unmount) tr) = lastUpdated s /\
      isConnected (run (step s Unmount) tr) = isConnected s /\
      updateCount (run (step s Unmount) tr) = updateCount s /\
      published (run (step s Unmount) tr) = published s) /\
  (forall (now : N) (o : Outcome Api.AccountInfo) (later : N),
      pending (step (mount now) Unmount) !! 0%nat = Some true /\
      observable (run (mount now) [Unmount; Settle 0 o later]) =
        observable (run (mount now) [Unmount]) /\
      published (run (mount now) [Unmount; Settle 0 o later]) = []).
Proof.
  split.
  - intros s tr Hl.
    destruct (gone_run tr _ (unmount_gone s Hl)) as (_ & Ho & Hp).
    assert (Hu : observable (step s Unmount) = observable s /\
                 published (step s Unmount) = published s).
    { cbn [step]. rewrite Hl. unfold effect_cleanup, stopRealTimeUpdates.
      cbn [intervalRef setMountedRef].
      destruct (intervalRef s); split; reflexivity. }
    destruct Hu as [Hu Hup]. rewrite Hp, Hup.
    split; [exact Ho|].
    rewrite Hu in Ho. apply observable_fields in Ho.
    destruct Ho as (Ha & _ & Ht & Hc & Hn & _). auto.
  - intros now o later. split; [vm_compute; reflexivity|].
    destruct o; split; vm_compute; reflexivity.
Qed.

(** *** Publication *)

(** C7 as stated fails: the second fetch, started by the first
    interval, settles and is published before the initial fetch; the
    initial fetch then settles and its snapshot replaces the newer
    one. *)
Lemma publication_order_counterexample :
  published (run (mount 0) Sample.overtaking) = [0; 1]%nat /\
  accountInfo (run (mount 0) Sample.overtaking) = Some Sample.snapshotA /\
  updateCount (run (mount 0) Sample.overtaking) = 2%N /\
  ~ inInitiationOrder (run (mount 0) Sample.overtaking).
Proof.
  assert (Hp : published (run (mount 0) Sample.overtaking) = [0; 1]%nat)
    by (vm_compute; reflexivity).
  split; [exact Hp|].
  split; [vm_compute; reflexivity|].
  split; [vm_compute; reflexivity|].
  unfold inInitiationOrder. rewrite Hp. cbn [rev app].
  intros H. inversion H as [|? ? _ Hall]; subst.
  inversion Hall as [|? ? Hlt _]; subst. lia.
Qed.

(** C7, as the code has it. Results are published in the order in which
    the fetches settle: when a pending fetch settles with a snapshot
    and the mounted flag is set, the snapshot is published, whatever
    was published before and whichever fetch was started first; the
    mounted flag is the only gate, and when it is cleared nothing is
    published. *)
Theorem publication_on_settle (s : State) (id : nat) (showLoading : bool)
    (info : Api.AccountInfo) (now : N) :
  pending s !! id = Some showLoading ->
  (mountedRef s = true ->
     accountInfo (step s (Settle id (Returned info) now)) = Some info /\
     lastUpdated (step s (Settle id (Returned info) now)) = now /\
     isConnected (step s (Settle id (Returned info) now)) = true /\
     updateCount (step s (Settle id (Returned info) now))
       = (updateCount s + 1)%N /\
     published (step s (Settle id (Returned info) now))
       = id :: published s) /\
  (mountedRef s = false ->
     observable (step s (Settle id (Returned info) now)) = observable s /\
     published (step s (Settle id (Returned info) now)) = published s).
Proof.
  intros Hp. cbn [step]. rewrite Hp.
  destruct s as [? ? ? ? ? ? ? mounted ? ? ? ? ? ?].
  unfold fetchAccountInfo_resume, observable.
  cbn [mountedRef setPending].
  split; intros ->; destruct showLoading; repeat split.
Qed.

Lemma publication_on_settle_witness :
  accountInfo (step (run (mount 0) [Tick 1; Settle 1 (Returned Sample.snapshotB) 1500])
                 (Settle 0 (Returned Sample.snapshotA) 2000))
    = Some Sample.snapshotA /\
  published (step (run (mount 0) [Tick 1; Settle 1 (Returned Sample.snapshotB) 1500])
               (Settle 0 (Returned Sample.snapshotA) 2000))
    = [0; 1]%nat.
Proof.
  destruct (publication_on_settle
              (run (mount 0) [Tick 1; Settle 1 (Returned Sample.snapshotB) 1500])
              0 true Sample.snapshotA 2000) as [Hpub _].
  - vm_compute. reflexivity.
  - destruct Hpub as (Ha & _ & _ & _ & Hp); [vm_compute; reflexivity|].
    split; [exact Ha|].
    rewrite Hp. vm_compute. reflexivity.
Defined.

Lemma no_publication_after_unmount_witness :
  updateCount (run (step (mount 0) Unmount)
                 [Settle 0 (Returned Sample.snapshotB) 700; Tick 1])
    = 0%N.
Proof.
  destruct no_publication_after_unmount as [Hgen _].
  destruct (Hgen (mount 0)
              [Settle 0 (Returned Sample.snapshotB) 700; Tick 1])
    as (_ & _ & _ & _ & Hc & _).
  - vm_compute. reflexivity.
  - rewrite Hc. vm_compute. reflexivity.
Defined.

(** *** Visibility *)

Lemma start_pending (active : bool) (s : State) :
  pending (startRealTimeUpdates active s) = pending s /\
  nextFetch (startRealTimeUpdates active s) = nextFetch s.
Proof.
  unfold startRealTimeUpdates. destruct (intervalRef s); split; reflexivity.
Qed.

Lemma stop_pending (s : State) :
  pending (stopRealTimeUpdates s) = pending s /\
  nextFetch (stopRealTimeUpdates s) = nextFetch s.
Proof.
  unfold stopRealTimeUpdates. destruct (intervalRef s); split; reflexivity.
Qed.

Lemma fetch_pending (showLoading : bool) (s : State) :
  pending (fetchAccountInfo showLoading s) =
    <[nextFetch s := showLoading]> (pending s) /\
  nextFetch (fetchAccountInfo showLoading s) = S (nextFetch s).
Proof. destruct showLoading; split; reflexivity. Qed.

(** C8. Hiding the page cancels the interval and leaves the active flag
    as it was; showing it again arms a one-second interval exactly when
    the flag is set, and leaves the flag as it was; and with the flag
    set, the new interval is the only live one and its next firing
    starts a background fetch. *)
Theorem visibility_keeps_active (s : State) :
  reachable s -> live s = true ->
  isRealTimeActive (hide s) = isRealTimeActive s /\
  intervalRef (hide s) = None /\
  timers (hide s) = ∅ /\
  isRealTimeActive (reveal (hide s)) = isRealTimeActive s /\
  (armed (reveal (hide s)) <-> isRealTimeActive s = true) /\
  (isRealTimeActive s = true ->
     exists t,
       intervalRef (reveal (hide s)) = Some t /\
       timers (reveal (hide s)) =
         {[ t := {| period := 1000; capturedActive := true |} ]} /\
       pending (step (reveal (hide s)) (Tick t)) =
         <[nextFetch s := false]> (pending s) /\
       nextFetch (step (reveal (hide s)) (Tick t)) = S (nextFetch s)).
Proof.
  intros Hr Hl. destruct (reachable_invariant s Hr) as [Hok Hm].
  rewrite Hl in Hm.
  assert (Hh : hide s = stopRealTimeUpdates s)
    by (unfold hide; cbn [step]; now rewrite Hl).
  destruct (stop_clears s Hok) as [Ht Hi].
  destruct (stop_flags s) as (Hm' & Hl' & Ha').
  destruct (stop_pending s) as [Hp' Hn'].
  pose proof (timersOk_stop s Hok) as Hok'.
  rewrite <- Hh in *. rewrite Hl in Hl'. rewrite Hm in Hm'.
  assert (Hv : reveal (hide s) =
               if isRealTimeActive s
               then startRealTimeUpdates true (hide s) else hide s).
  { unfold reveal. cbn [step]. rewrite Hl'. unfold handleVisibilityChange.
    rewrite Ha'. now destruct (isRealTimeActive s). }
  split; [exact Ha'|]. split; [exact Hi|]. split; [exact Ht|].
  destruct (start_arms true (hide s) Hok') as [Hsi Hst].
  destruct (start_flags true (hide s)) as (Hsm & _ & Hsa).
  destruct (start_pending true (hide s)) as [Hsp Hsn].
  rewrite Hv. destruct (isRealTimeActive s) eqn:Hact.
  - split; [congruence|]. split.
    + split; [reflexivity|]. intros _.
      exists (nextTimer (hide s)), true. split; [exact Hsi|].
      rewrite Hst. apply lookup_singleton_eq.
    + intros _. exists (nextTimer (hide s)).
      split; [exact Hsi|]. split; [exact Hst|].
      cbn [step]. unfold onInterval.
      rewrite Hst, lookup_singleton_eq, Hsm, Hm'. cbn [andb capturedActive].
      destruct (fetch_pending false (startRealTimeUpdates true (hide s)))
        as [-> ->].
      rewrite Hsp, Hsn, Hp', Hn'. split; reflexivity.
  - split; [exact Ha'|]. split; [|discriminate].
    split; [|discriminate].
    intros (h & active & Hi2 & _). congruence.
Qed.

Lemma visibility_keeps_active_witness :
  isRealTimeActive (reveal (hide (mount 0))) = true /\
  armed (reveal (hide (mount 0))).
Proof.
  assert (Hr : reachable (mount 0)) by (exists 0%N, []; reflexivity).
  destruct (visibility_keeps_active (mount 0) Hr)
    as (_ & _ & _ & Ha & Harmed & _).
  - vm_compute. reflexivity.
  - split; [rewrite Ha; vm_compute; reflexivity|].
    apply Harmed. vm_compute. reflexivity.
Defined.

End DashboardFacts.

(** ** Concrete snapshot fetches *)
Section SnapshotExamples.
Import JSString JS Api Spec Sample.

Lemma getAccountInfo_total_witness :
  result (getAccountInfo detailsOnly "   ") = Returned defaultAccountInfo /\
  requests (effects (getAccountInfo detailsOnly "   ")) = [].
Proof.
  apply (getAccountInfo_total detailsOnly "   "). reflexivity.
Defined.

Lemma snapshot_merge_witness :
  exists info,
    result (getAccountInfo detailsOnly "a1b2c3d4e5f6") = Returned info /\
    accountNumber info = JString "12345" /\
    balance info = JNumber 0 /\
    currency info = JString "USD".
Proof.
  destruct (snapshot_merge detailsOnly "a1b2c3d4e5f6" emptyObject500
              (jsonResponse 200 "{accountNumber: '12345'}"
                 (JObject {[ "accountNumber" := JString "12345" ]})))
    as (info & Hr & _ & _ & _ & _ & _ & _ & _ & _ & _ & _ & _ & Hex).
  - reflexivity.
  - reflexivity.
  - reflexivity.
  - exists info. split; [exact Hr|].
    rewrite Hex by reflexivity. repeat split.
Defined.

Lemma transport_failure_defaults_witness :
  result (getAccountInfo summaryRejected "a1b2c3d4e5f6") =
    Returned defaultAccountInfo.
Proof.
  apply (transport_failure_defaults summaryRejected "a1b2c3d4e5f6"
           (ThrowTypeError "Failed to fetch")).
  - reflexivity.
  - left. reflexivity.
Defined.

End SnapshotExamples.

(** ** More on strings *)
Section MoreStringFacts.
Import JSString Spec.

(** A string that does not begin with white space. *)
Lemma trimStart_clean (s : string) :
  match trimStart s with
  | EmptyString => True
  | String a _ => isWhiteSpace a = false
  end.
Proof.
  induction s as [|a r IH]; cbn; [exact I|].
  destruct (isWhiteSpace a) eqn:Ha; [exact IH | exact Ha].
Qed.

Lemma trimEnd_idempotent (s : string) : trimEnd (trimEnd s) = trimEnd s.
Proof.
  induction s as [|a r IH]; [reflexivity|]. cbn [trimEnd].
  destruct (trimEnd r) as [|b t] eqn:Hr.
  - destruct (isWhiteSpace a) eqn:Ha; [reflexivity|].
    cbn. now rewrite Ha.
  - cbn [trimEnd] in *. now rewrite IH.
Qed.

Lemma trimStart_trimEnd_clean (a : ascii) (r : string) :
  isWhiteSpace a = false ->
  trimStart (trimEnd (String a r)) = trimEnd (String a r).
Proof.
  intros Ha. cbn [trimEnd].
  destruct (trimEnd r); rewrite ?Ha; cbn [trimStart]; now rewrite Ha.
Qed.

(** Trimming twice is trimming once. *)
Theorem trim_idempotent (s : string) : trim (trim s) = trim s.
Proof.
  unfold trim. pose proof (trimStart_clean s) as Hc.
  destruct (trimStart s) as [|a r]; [reflexivity|].
  rewrite trimStart_trimEnd_clean by exact Hc.
  apply trimEnd_idempotent.
Qed.

Lemma trim_not_blank (s : string) :
  nonEmpty (trim s) = true -> allWhite (trim s) = false.
Proof.
  intros H. rewrite <- trim_idempotent, trim_nonEmpty in H.
  now destruct (allWhite (trim s)).
Qed.

Lemma append_cons (a : ascii) (s t : string) :
  String a s +:+ t = String a (s +:+ t).
Proof. reflexivity. Qed.

Lemma append_empty (t : string) : EmptyString +:+ t = t.
Proof. reflexivity. Qed.

Lemma toLowerCase_app (s t : string) :
  toLowerCase (s +:+ t) = toLowerCase s +:+ toLowerCase t.
Proof.
  induction s as [|a r IH]; [reflexivity|].
  rewrite append_cons. cbn [toLowerCase]. now rewrite IH.
Qed.

Lemma startsWith_app (p s : string) : startsWith p (p +:+ s) = true.
Proof.
  induction p as [|a r IH]; [reflexivity|].
  rewrite append_cons. cbn [startsWith]. now rewrite Ascii.eqb_refl, IH.
Qed.

Lemma includes_unfold (s p : string) :
  includes s p =
    startsWith p s ||
    match s with
    | EmptyString => false
    | String _ r => includes r p
    end.
Proof. destruct s; reflexivity. Qed.

(** A string includes each of its contiguous parts. *)
Lemma includes_app (a b c : string) : includes (a +:+ b +:+ c) b = true.
Proof.
  induction a as [|x a IH]; rewrite includes_unfold.
  - rewrite append_empty. now rewrite startsWith_app.
  - rewrite append_cons, IH. apply orb_true_r.
Qed.

(** White space has no letters: an all-white string includes no string
    that begins with another character. *)
Lemma allWhite_excludes (s : string) (c : ascii) (p : string) :
  allWhite s = true -> isWhiteSpace c = false ->
  includes (toLowerCase s) (String c p) = false.
Proof.
  intros Hs Hc. induction s as [|a r IH]; [reflexivity|].
  cbn [allWhite] in Hs. apply andb_true_iff in Hs as [Ha Hr].
  cbn [toLowerCase]. rewrite includes_unfold, (IH Hr), orb_false_r.
  cbn [startsWith].
  assert (Hl : lowerChar a = a).
  { unfold lowerChar, isWhiteSpace in *. revert Ha.
    destruct (code a) as [|p0] eqn:Hcode; [discriminate|].
    intros Ha.
    destruct ((65 <=? N.pos p0)%N && (N.pos p0 <=? 90)%N
              || (192 <=? N.pos p0)%N && (N.pos p0 <=? 222)%N
                 && negb (N.pos p0 =? 215)%N) eqn:Hup; [|reflexivity].
    exfalso.
    repeat match goal with
    | H : _ || _ = true |- _ => apply orb_true_iff in H as [H | H]
    | H : _ && _ = true |- _ => apply andb_true_iff in H as [? ?]
    | H : (_ <=? _)%N = true |- _ => apply N.leb_le in H
    | H : (_ =? _)%N = true |- _ => apply N.eqb_eq in H
    end; lia. }
  rewrite Hl. destruct (Ascii.eqb c a) eqn:E; [|reflexivity].
  apply Ascii.eqb_eq in E. congruence.
Qed.

End MoreStringFacts.

(** ** More on the login exchange *)
Section MoreLoginFacts.
Import JSString JS Api Spec.
Variable net : Network.

(** X1. A token that holds one of the error keywords, in whatever letter
    case and wherever in the token, is rejected. *)
Theorem validateToken_rejects_keyword (before word after : string) :
  In (toLowerCase word) errorKeywords ->
  validateToken (before +:+ word +:+ after) = false.
Proof.
  intros Hk. unfold validateToken.
  destruct (negb (nonEmpty (before +:+ word +:+ after))
            || (String.length (before +:+ word +:+ after) <? 10)%nat);
    [reflexivity|].
  apply negb_false_iff, existsb_exists.
  exists (toLowerCase word). split; [exact Hk|].
  rewrite !toLowerCase_app. apply includes_app.
Qed.

(** A body of white space only, ten characters or more, passes
    validateToken although nothing is left of it once trimmed. *)
Theorem validateToken_accepts_blank (body : string) :
  allWhite body = true -> (10 <= String.length body)%nat ->
  validateToken body = true /\ trim body = EmptyString.
Proof.
  intros Hw Hl. split; [|now apply trim_empty_iff].
  unfold validateToken.
  destruct body as [|a r]; [cbn in Hl; lia|].
  apply Nat.ltb_ge in Hl. rewrite Hl. cbn [nonEmpty negb orb].
  apply negb_true_iff.
  destruct (existsb (fun keyword => includes (toLowerCase (String a r)) keyword)
              errorKeywords) eqn:He; [|reflexivity].
  apply existsb_exists in He as (k & Hk & Hi).
  assert (Hnone : forall c p, k = String c p -> isWhiteSpace c = false ->
                    False).
  { intros c p -> Hc. now rewrite (allWhite_excludes _ c p Hw Hc) in Hi. }
  cbn in Hk.
  exfalso.
  destruct Hk as [<- | [<- | [<- | [<- | [<- | []]]]]];
    eapply Hnone; reflexivity.
Qed.

(** X2. loginToMT5 sees the username and the server only trimmed: white
    space around them changes neither the validation nor the request, hence
    not the login. *)
Theorem login_ignores_outer_space (credentials : LoginCredentials) :
  loginToMT5 net
    {| username := trim (username credentials);
       password := password credentials;
       server := trim (server credentials) |}
  = loginToMT5 net credentials.
Proof.
  unfold loginToMT5, validateCredentials, loginRequest.
  cbn [username password server]. rewrite !trim_idempotent. reflexivity.
Qed.

(** X3. handleApiError never throws, has no effect of its own, and the
    message it returns is never falsy. *)
Theorem handleApiError_message (response : Response) :
  exists message,
    handleApiError response = (Returned message, []) /\
    truthy message = true.
Proof.
  unfold handleApiError.
  destruct (isJson (contentType response)).
  - destruct (json response) as [data|e]; [|eexists; split; reflexivity].
    destruct data; cbn; try (eexists; split; reflexivity).
    destruct (truthy (default JUndefined (m !! "message"))) eqn:Hm;
      [eexists; split; [reflexivity | exact Hm]|].
    unfold or_else.
    destruct (truthy (default JUndefined (m !! "error"))) eqn:He;
      eexists; split; try reflexivity. exact He.
  - destruct (text response) as [t|e]; [|eexists; split; reflexivity].
    destruct t; eexists; split; reflexivity.
Qed.

(** The error messages of validateCredentials are not empty. *)
Lemma validation_message_truthy (credentials : LoginCredentials)
    (message : string) :
  validateCredentials credentials = Some message ->
  nonEmpty message = true.
Proof.
  unfold validateCredentials. intros H.
  repeat case_match; try discriminate; injection H as <-; reflexivity.
Qed.

(** loginToMT5, its effects apart, is the function loginAnswer. *)
Lemma loginToMT5_answer (credentials : LoginCredentials) :
  loginToMT5 net credentials =
    (Returned (Answer.loginAnswer net credentials),
     match validateCredentials credentials with
     | Some _ => []
     | None => [Fetch (loginRequest credentials)]
     end).
Proof.
  unfold loginToMT5, Answer.loginAnswer.
  destruct (validateCredentials credentials) as [message|] eqn:Hv.
  - cbn [truthy_message default].
    now rewrite (validation_message_truthy credentials message Hv).
  - cbn [truthy_message]. unfold fetch.
    destruct (respond net (loginRequest credentials)) as [response|e].
    + cbv beta iota delta [bind].
      assert (Hok : ok response && (status response =? 200)%N
                    = (status response =? 200)%N).
      { unfold ok. destruct (N.eqb_spec (status response) 200) as [->|];
          [reflexivity | apply andb_false_r]. }
      rewrite Hok. destruct (status response =? 200)%N.
      * destruct (text response) as [body|e]; cbn [lift].
        -- destruct (validateToken body); reflexivity.
        -- destruct e as [m|name m|v]; cbn;
             [|destruct (String.eqb name "AbortError")|]; reflexivity.
      * unfold Answer.apiErrorMessage.
        destruct (handleApiError_returns response) as (v & ->).
        reflexivity.
    + destruct e as [m|name m|v]; cbn;
        [|destruct (String.eqb name "AbortError")|]; reflexivity.
Qed.

(** X4. loginToMT5 never throws. It issues no request when the validation
    fails and exactly one otherwise; and what it returns is either a success
    with a token and no error, or a failure with an error and no token. *)
Theorem loginToMT5_total (credentials : LoginCredentials) :
  exists response,
    loginToMT5 net credentials =
      (Returned response,
       match validateCredentials credentials with
       | Some _ => []
       | None => [Fetch (loginRequest credentials)]
       end) /\
    ((success response = true /\ error response = None /\
      exists t, token response = Some t) \/
     (success response = false /\ token response = None /\
      exists e, error response = Some e)).
Proof.
  exists (Answer.loginAnswer net credentials).
  split; [apply loginToMT5_answer|].
  unfold Answer.loginAnswer.
  repeat case_match; cbn; eauto 6.
Qed.

(** X5. A transport failure of the login call, or of reading the body of a
    200 response, ends in the handler of loginToMT5: a [TypeError] gives the
    connection message, an error named AbortError the timeout message,
    another error its own message, and anything else the generic message. *)
Theorem login_transport_failure (credentials : LoginCredentials)
    (e : Thrown) :
  validateCredentials credentials = None ->
  respond net (loginRequest credentials) = Threw e \/
  (exists response,
      respond net (loginRequest credentials) = Returned response /\
      status response = 200%N /\ text response = Threw e) ->
  loginToMT5 net credentials =
    (Returned
       {| success := false; token := None;
          error := Some (JString
            match e with
            | ThrowTypeError _ =>
                "Network connection failed. Please check your internet connection."
            | ThrowError name message =>
                if String.eqb name "AbortError"
                then "Request timeout. Please try again." else message
            | ThrowValue _ => "An unexpected error occurred"
            end) |},
     [Fetch (loginRequest credentials)]).
Proof.
  intros Hv Hfail. rewrite loginToMT5_answer. unfold Answer.loginAnswer.
  rewrite Hv.
  destruct Hfail as [Hr | (response & Hr & Hs & Ht)]; rewrite Hr.
  - reflexivity.
  - rewrite Hs, Ht. reflexivity.
Qed.

End MoreLoginFacts.

(** ** More on getAccountInfo *)
Section MoreSnapshotFacts.
Import JSString JS Api Spec.
Variable net : Network.
Variable token : string.

Lemma requests_app (l1 l2 : list Event) :
  requests (l1 ++ l2) = (requests l1 ++ requests l2)%list.
Proof. apply omap_app. Qed.

(** X6. For a token that is not blank, getAccountInfo issues its two
    requests, the summary and then the details, each with the token as
    given, whatever the answers are; for a blank one it issues none. *)
Theorem getAccountInfo_requests :
  requests (effects (getAccountInfo net token)) =
    if allWhite token then []
    else [ {| path := "/api/AccountSummary"; params := [("id", token)] |};
           {| path := "/api/AccountDetails"; params := [("id", token)] |} ].
Proof.
  unfold getAccountInfo. rewrite trim_nonEmpty.
  destruct (allWhite token); [reflexivity|]. cbn [negb].
  unfold getAccountInfo_try, fetch_all2.
  destruct (respond net (summaryRequest token)) as [sr|e1],
           (respond net (detailsRequest token)) as [dr|e2].
  - destruct (readSource_returns "summary" sr) as (l1 & H1 & Hq1).
    destruct (readSource_returns "details" dr) as (l2 & H2 & Hq2).
    cbv beta iota delta [bind]. rewrite H1, H2.
    cbn [ret try_catch effects snd].
    rewrite !requests_app, Hq1, Hq2. reflexivity.
  - reflexivity.
  - reflexivity.
  - destruct (first_settles_first net); reflexivity.
Qed.

End MoreSnapshotFacts.

(** ** The login form and the session *)
Section SessionFacts.
Import JSString JS Api Spec.
Variable net : Network.

(** X7. The form and the API layer agree on which credentials are
    acceptable: validateForm lets a submit through, with no field error,
    exactly when validateCredentials has no error; so every login that the
    form starts issues its request. *)
Theorem validateForm_agrees (credentials : LoginCredentials) :
  (snd (LoginForm.validateForm credentials) = true <->
   validateCredentials credentials = None) /\
  (fst (LoginForm.validateForm credentials) = ∅ <->
   validateCredentials credentials = None) /\
  (snd (LoginForm.validateForm credentials) = true ->
   effects (loginToMT5 net credentials) = [Fetch (loginRequest credentials)]).
Proof.
  assert (Hfst : fst (LoginForm.validateForm credentials) = ∅ <->
                 validateCredentials credentials = None).
  { unfold LoginForm.validateForm, validateCredentials. cbn [fst].
    destruct (nonEmpty (trim (username credentials)));
      destruct (nonEmpty (trim (password credentials)));
      destruct (nonEmpty (trim (server credentials)));
      destruct (test_digits (trim (username credentials)));
      cbn [negb];
      (split; intros H; try reflexivity; try discriminate);
      now apply insert_non_empty in H. }
  assert (Hsnd : snd (LoginForm.validateForm credentials) = true <->
                 fst (LoginForm.validateForm credentials) = ∅).
  { change (snd (LoginForm.validateForm credentials))
      with (bool_decide
              (size (fst (LoginForm.validateForm credentials)) = 0%nat)).
    rewrite bool_decide_eq_true. apply map_size_empty_iff. }
  split; [now rewrite Hsnd|]. split; [exact Hfst|].
  intros H. apply Hsnd, Hfst in H.
  now rewrite loginToMT5_answer, H.
Qed.

(** loginToMT5 succeeds only in one way: the credentials are valid, the
    response has status 200, its body passes validateToken, and the token
    is the trimmed body; everything else is a failure with an error. *)
Lemma loginToMT5_cases (credentials : LoginCredentials) :
  exists response,
    result (loginToMT5 net credentials) = Returned response /\
    ((exists r body,
         validateCredentials credentials = None /\
         respond net (loginRequest credentials) = Returned r /\
         status r = 200%N /\ text r = Returned body /\
         validateToken body = true /\
         response = login_success (trim body)) \/
     (exists e, response = login_failure e)).
Proof.
  exists (Answer.loginAnswer net credentials).
  split; [now rewrite loginToMT5_answer|].
  unfold Answer.loginAnswer.
  destruct (validateCredentials credentials) as [message|] eqn:Hv;
    [right; eexists; reflexivity|].
  destruct (respond net (loginRequest credentials)) as [r|e] eqn:Hr;
    [|right; eexists; reflexivity].
  destruct (N.eqb_spec (status r) 200) as [Hs|Hs];
    [|right; eexists; reflexivity].
  destruct (text r) as [body|e] eqn:Ht; [|right; eexists; reflexivity].
  destruct (validateToken body) eqn:Hb; [|right; eexists; reflexivity].
  left. exists r, body. repeat split; first [reflexivity | assumption].
Qed.

Lemma handleLogin_unfold (credentials : LoginCredentials) (s : App.State)
    (response : LoginResponse) :
  result (loginToMT5 net credentials) = Returned response ->
  App.handleLogin net credentials s =
    (Returned
       {| App.isAuthenticated :=
            App.isAuthenticated
              (App.handleLogin_response response (App.handleLogin_begin s));
          App.authToken :=
            App.authToken
              (App.handleLogin_response response (App.handleLogin_begin s));
          App.isLoading := false;
          App.error :=
            App.error
              (App.handleLogin_response response (App.handleLogin_begin s)) |},
     effects (loginToMT5 net credentials)).
Proof.
  intros Hr. unfold App.handleLogin.
  destruct (loginToMT5 net credentials) as [o l]. cbn in Hr. subst o.
  cbn. now rewrite !app_nil_r.
Qed.

(** X8. handleLogin always completes, with [isLoading] cleared. It ends
    authenticated, with no error and a non-empty token, exactly through a
    200 response whose body passes validateToken and is not blank, the token
    being the trimmed body; otherwise the session is as it was and the form
    has a non-empty error to show. *)
Theorem handleLogin_outcome (credentials : LoginCredentials)
    (s : App.State) :
  exists s',
    App.handleLogin net credentials s =
      (Returned s', effects (loginToMT5 net credentials)) /\
    App.isLoading s' = false /\
    ((App.isAuthenticated s' = true /\ App.error s' = JNull /\
      exists r body,
        validateCredentials credentials = None /\
        respond net (loginRequest credentials) = Returned r /\
        status r = 200%N /\ text r = Returned body /\
        validateToken body = true /\ nonEmpty (trim body) = true /\
        App.authToken s' = Some (trim body)) \/
     (App.isAuthenticated s' = App.isAuthenticated s /\
      App.authToken s' = App.authToken s /\
      truthy (App.error s') = true)).
Proof.
  destruct (loginToMT5_cases credentials) as (response & Hres & Hcases).
  eexists. split; [apply handleLogin_unfold; exact Hres|].
  split; [reflexivity|]. cbn [App.isAuthenticated App.authToken App.error].
  unfold App.handleLogin_response.
  destruct Hcases as [(r & body & Hv & Hr & Hs & Ht & Hb & ->) | (e & ->)].
  - cbn [success token login_success App.truthy_token andb].
    destruct (nonEmpty (trim body)) eqn:Hn.
    + left. repeat split. exists r, body. repeat split; assumption.
    + right. repeat split.
  - right. cbn [success login_failure andb]. repeat split.
    cbn. unfold or_else. now destruct (truthy e) eqn:He.
Qed.

(** X9. A 200 response whose body is white space only, ten characters or
    more: loginToMT5 reports a success with an empty token, and handleLogin,
    which asks for a token, leaves the session as it was and shows its own
    message. *)
Theorem blank_token_login (credentials : LoginCredentials)
    (r : Response) (body : string) (s : App.State) :
  validateCredentials credentials = None ->
  respond net (loginRequest credentials) = Returned r ->
  status r = 200%N -> text r = Returned body ->
  allWhite body = true -> (10 <= String.length body)%nat ->
  result (loginToMT5 net credentials) =
    Returned {| success := true; token := Some EmptyString;
                error := None |} /\
  result (App.handleLogin net credentials s) =
    Returned {| App.isAuthenticated := App.isAuthenticated s;
                App.authToken := App.authToken s;
                App.isLoading := false;
                App.error :=
                  JString "Login failed. Please check your credentials." |}.
Proof.
  intros Hv Hr Hs Ht Hw Hl.
  destruct (validateToken_accepts_blank body Hw Hl) as [Hb He].
  assert (Hres : result (loginToMT5 net credentials) =
                 Returned {| success := true; token := Some EmptyString;
                             error := None |}).
  { rewrite loginToMT5_answer. unfold Answer.loginAnswer.
    rewrite Hv, Hr, Hs, Ht, Hb, He. reflexivity. }
  split; [exact Hres|].
  now rewrite (handleLogin_unfold credentials s _ Hres).
Qed.

(** The session keeps its token in order: between events nothing is
    loading, and a token is held exactly when the session is
    authenticated; it is then not empty and already trimmed. *)
Lemma session_invariant (tr : list App.Event) :
  App.isLoading (App.run net App.initial tr) = false /\
  match App.authToken (App.run net App.initial tr) with
  | Some t =>
      App.isAuthenticated (App.run net App.initial tr) = true /\
      nonEmpty t = true /\ trim t = t
  | None => App.isAuthenticated (App.run net App.initial tr) = false
  end.
Proof.
  unfold App.run.
  assert (Hgen : forall s,
    (App.isLoading s = false /\
     match App.authToken s with
     | Some t => App.isAuthenticated s = true /\ nonEmpty t = true /\
                 trim t = t
     | None => App.isAuthenticated s = false
     end) ->
    App.isLoading (fold_left (App.step net) tr s) = false /\
     match App.authToken (fold_left (App.step net) tr s) with
     | Some t => App.isAuthenticated (fold_left (App.step net) tr s) = true /\
                 nonEmpty t = true /\ trim t = t
     | None => App.isAuthenticated (fold_left (App.step net) tr s) = false
     end).
  { induction tr as [|e tr IH]; intros s Hs; [exact Hs|].
    cbn [fold_left]. apply IH. clear IH.
    destruct Hs as [Hl Ht]. unfold App.step, App.render.
    destruct e as [credentials|].
    - destruct (App.authToken s) as [t|] eqn:Htok.
      + destruct Ht as (Ha & Hn & Htr). rewrite Ha, Hn. cbn [andb].
        split; [exact Hl | rewrite Htok; auto].
      + destruct (negb (App.isLoading s)
                  && snd (LoginForm.validateForm credentials));
          [|split; [exact Hl | now rewrite Htok]].
        destruct (loginToMT5_cases credentials) as (response & Hres & Hcases).
        rewrite (handleLogin_unfold credentials s response Hres).
        cbn [result fst App.isLoading App.authToken App.isAuthenticated].
        split; [reflexivity|]. unfold App.handleLogin_response.
        destruct Hcases as [(r & body & _ & _ & _ & _ & _ & ->) | (e & ->)].
        * cbn [success token login_success App.truthy_token andb].
          destruct (nonEmpty (trim body)) eqn:Hn;
            cbn [App.authToken App.isAuthenticated App.handleLogin_begin].
          -- repeat split; [exact Hn | apply trim_idempotent].
          -- now rewrite Htok.
        * cbn [success login_failure andb App.authToken App.isAuthenticated
               App.handleLogin_begin].
          now rewrite Htok.
    - destruct (App.authToken s) as [t|] eqn:Htok.
      + destruct Ht as (Ha & Hn & Htr). rewrite Ha, Hn. cbn [andb].
        split; [exact Hl | reflexivity].
      + split; [exact Hl | now rewrite Htok]. }
  apply Hgen. split; reflexivity.
Qed.

(** X10. The dashboard is only ever rendered with a token that is not blank
    and is already trimmed, so the guard of getAccountInfo against a missing
    token does not fire for it. *)
Theorem dashboard_token_not_blank (tr : list App.Event) (t : string) :
  App.render (App.run net App.initial tr) = App.DashboardScreen t ->
  allWhite t = false /\ trim t = t /\ negb (nonEmpty (trim t)) = false.
Proof.
  intros Hrender. destruct (session_invariant tr) as [_ Hinv].
  unfold App.render in Hrender.
  destruct (App.authToken (App.run net App.initial tr)) as [t'|];
    [|discriminate].
  destruct Hinv as (Ha & Hn & Ht). rewrite Ha, Hn in Hrender.
  injection Hrender as <-.
  assert (Hw : allWhite t' = false).
  { rewrite <- Ht. apply trim_not_blank. now rewrite Ht. }
  split; [exact Hw|]. split; [exact Ht|].
  now rewrite Ht, Hn.
Qed.

End SessionFacts.

(** ** More on the polling logic *)
Section MoreDashboardFacts.
Import JS Dashboard Spec Polling.

Ltac open_step :=
  unfold step, onInterval, toggleRealTime, effect_run, effect_cleanup,
    handleVisibilityChange, startRealTimeUpdates, stopRealTimeUpdates,
    fetchAccountInfo, fetchAccountInfo_resume, setInterval, clearInterval;
  cbn [accountInfo isLoading lastUpdated isConnected updateCount
       isRealTimeActive intervalRef mountedRef timers nextTimer pending
       nextFetch live published
       setIsLoading setIsConnected setIsRealTimeActive setAccountInfo
       setLastUpdated incrUpdateCount setIntervalRef setMountedRef setTimers
       setNextTimer setPending setNextFetch setLive setPublished
       negb andb].

Lemma counted_step (s : State) (e : Event) : counted s -> counted (step s e).
Proof.
  intros (Hc & Hnd & Hpub & Hpend & Hm & Hload).
  destruct s as [ai il lu ic uc act ir mr tm nt pd nf lv pb].
  cbn in Hc, Hnd, Hpub, Hpend, Hm, Hload. subst mr.
  destruct e as [h|id o now| | |hidden|]; open_step.
  all: repeat case_match; unfold counted; open_step;
    try discriminate; try (repeat split; assumption).
  all: repeat match goal with
       | H : _ && _ = true |- _ => apply andb_true_iff in H as [? ?]
       | H : negb _ = true |- _ => apply negb_true_iff in H
       | H : negb _ = false |- _ => apply negb_false_iff in H
       end; subst; try discriminate.
  all: (split; [cbn [length]; lia|]).
  all: (split; [first [assumption |
          constructor; [intros Hin; apply list_elem_of_In, Hpub in Hin as [_ Hin];
                        congruence
                       | assumption]]|]).
  all: (split; [intros id' Hin; cbn [In] in Hin;
          try (destruct Hin as [<- | Hin]);
          try (pose proof (Hpub _ Hin) as [? ?]);
          try (match goal with H : _ !! _ = Some _ |- _ =>
                 pose proof (Hpend _ _ H) end);
          (split; [lia|]);
          rewrite ?lookup_delete_eq, ?lookup_insert_ne by lia;
          try reflexivity; try assumption;
          try (apply lookup_delete_None; now right)|]).
  all: (split; [intros id' sl' Hl;
          repeat match goal with
          | H : <[_:=_]> _ !! _ = Some _ |- _ =>
              apply lookup_insert_Some in H as [[<- <-] | [? H]]
          | H : delete _ _ !! _ = Some _ |- _ =>
              apply lookup_delete_Some in H as [? H]
          end;
          try (pose proof (Hpend _ _ Hl)); lia|]).
  all: (split; [reflexivity|]).
  all: intros Hlv Hil; try discriminate.
  all: try (exists nf; apply lookup_insert_eq).
  all: destruct (Hload Hlv Hil) as (id1 & Hid1); exists id1.
  all: try assumption.
  all: try (pose proof (Hpend _ _ Hid1); rewrite lookup_insert_ne by lia;
            assumption).
  all: cbn [mountedRef setPublished incrUpdateCount setIsConnected
            setLastUpdated setAccountInfo setPending andb] in *;
       subst; try discriminate.
  all: rewrite lookup_delete_ne; [assumption | congruence].
Qed.

Lemma counted_mount (now : N) : counted (mount now).
Proof.
  unfold counted, mount, initial. open_step.
  split; [reflexivity|]. split; [constructor|].
  split; [intros k []|].
  split.
  - intros k sl [[<- <-] | [_ H]]%lookup_insert_Some; [lia|].
    now rewrite lookup_empty in H.
  - split; [reflexivity|]. intros _ _. exists 0%nat. apply lookup_insert_eq.
Qed.

(** X11. Every fetch is published at most once, and [updateCount] is the
    number of snapshots published so far. *)
Theorem publications_counted (s : State) :
  reachable s ->
  updateCount s = N.of_nat (length (published s)) /\
  NoDup (published s) /\
  (forall id, In id (published s) ->
     (id < nextFetch s)%nat /\ pending s !! id = None).
Proof.
  intros (now & tr & ->).
  destruct (run_invariant counted counted_step tr (mount now)
              (counted_mount now)) as (Hc & Hnd & Hpub & _).
  auto.
Qed.

(** X12. The loading indicator is never stuck: while the component is
    mounted and shows [isLoading], a fetch started with the loading
    indication is pending, whose settlement clears it. *)
Theorem loading_has_pending_fetch (s : State) :
  reachable s -> live s = true -> isLoading s = true ->
  exists id,
    pending s !! id = Some true /\
    forall o now, isLoading (step s (Settle id o now)) = false.
Proof.
  intros (now & tr & ->) Hl Hil.
  destruct (run_invariant counted counted_step tr (mount now)
              (counted_mount now)) as (_ & _ & _ & _ & Hm & Hload).
  destruct (Hload Hl Hil) as (id & Hid). exists id. split; [exact Hid|].
  intros o now'. cbn [step]. rewrite Hid. rewrite Hl in Hm. clear -Hm.
  destruct (run (mount now) tr) as [? ? ? ? ? ? ? mounted ? ? ? ? ? ?].
  cbn in Hm. subst mounted. unfold fetchAccountInfo_resume. open_step.
  destruct o; reflexivity.
Qed.

(** X13. A fetch that fails while the component is mounted marks the
    connection as lost and nothing else: the last snapshot, the counter and
    the interval stay, and the loading indication is cleared if the fetch
    had set it. *)
Theorem fetch_failure_keeps_snapshot (s : State) (id : nat)
    (showLoading : bool) (e : Thrown) (now : N) :
  pending s !! id = Some showLoading -> mountedRef s = true ->
  isConnected (step s (Settle id (Threw e) now)) = false /\
  accountInfo (step s (Settle id (Threw e) now)) = accountInfo s /\
  lastUpdated (step s (Settle id (Threw e) now)) = lastUpdated s /\
  updateCount (step s (Settle id (Threw e) now)) = updateCount s /\
  published (step s (Settle id (Threw e) now)) = published s /\
  timers (step s (Settle id (Threw e) now)) = timers s /\
  intervalRef (step s (Settle id (Threw e) now)) = intervalRef s /\
  isRealTimeActive (step s (Settle id (Threw e) now)) = isRealTimeActive s /\
  isLoading (step s (Settle id (Threw e) now)) =
    (if showLoading then false else isLoading s) /\
  pending (step s (Settle id (Threw e) now)) = delete id (pending s).
Proof.
  intros Hp Hm. cbn [step]. rewrite Hp.
  destruct s as [? ? ? ? ? ? ? mounted ? ? ? ? ? ?]. cbn in Hm. subst mounted.
  unfold fetchAccountInfo_resume. open_step.
  destruct showLoading; repeat split.
Qed.


Lemma ticking_empty (s : State) : timers s = ∅ -> ticking s.
Proof. intros He h cb. now rewrite He, lookup_empty. Qed.

Lemma ticking_singleton (s : State) (h : nat) :
  timers s = {[ h := {| period := 1000; capturedActive := true |} ]} ->
  isRealTimeActive s = true -> live s = true -> ticking s.
Proof.
  intros Ht Ha Hl h' cb. rewrite Ht.
  intros [_ <-]%lookup_singleton_Some. auto.
Qed.

Lemma ticking_same (s s' : State) :
  timers s' = timers s -> isRealTimeActive s' = isRealTimeActive s ->
  live s' = live s -> ticking s -> ticking s'.
Proof. unfold ticking. intros -> -> ->. auto. Qed.

(** The mount effect leaves one interval when real-time updates are on,
    and the intervals alone when they are off. *)
Lemma effect_run_timers (s : State) :
  timersOk s ->
  timers (effect_run s) =
    (if isRealTimeActive s
     then {[ nextTimer s := {| period := 1000; capturedActive := true |} ]}
     else timers s) /\
  intervalRef (effect_run s) =
    (if isRealTimeActive s then Some (nextTimer s) else intervalRef s).
Proof.
  intros Hok. unfold effect_run.
  destruct (fetchAccountInfo_intervals true (setMountedRef true s))
    as (Ht & Hi & _ & _ & Ha).
  pose proof (timersOk_fetch true (setMountedRef true s) Hok) as Hok'.
  change (isRealTimeActive (setMountedRef true s))
    with (isRealTimeActive s) in Ha.
  change (timers (setMountedRef true s)) with (timers s) in Ht.
  change (intervalRef (setMountedRef true s)) with (intervalRef s) in Hi.
  rewrite Ha. destruct (isRealTimeActive s).
  - destruct (start_arms true _ Hok') as [-> ->].
    destruct (fetch_pending true (setMountedRef true s)) as [_ _].
    split; reflexivity.
  - split; assumption.
Qed.

Lemma ticking_step (s : State) (e : Event) :
  timersOk s -> mountedRef s = live s -> ticking s -> ticking (step s e).
Proof.
  intros Hok Hm Ht. destruct e as [h|id o now| | |hidden|]; cbn [step].
  - unfold onInterval. destruct (timers s !! h); [|exact Ht].
    destruct (mountedRef s && capturedActive _); [|exact Ht].
    destruct (fetchAccountInfo_intervals false s) as (? & _ & _ & ? & ?).
    now apply (ticking_same s).
  - destruct (pending s !! id) as [sl|]; [|exact Ht].
    destruct (resume_intervals id sl o now
                (setPending (delete id (pending s)) s))
      as (? & _ & _ & ? & ?).
    now apply (ticking_same s).
  - destruct (live s) eqn:Hl; [|exact Ht]. unfold toggleRealTime.
    set (x := setIsRealTimeActive (negb (isRealTimeActive s))
                (if negb (isRealTimeActive s)
                 then startRealTimeUpdates (isRealTimeActive s) s
                 else stopRealTimeUpdates s)).
    assert (Hx : timersOk x).
    { subst x. destruct (negb (isRealTimeActive s)).
      - exact (timersOk_start (isRealTimeActive s) s Hok).
      - exact (timersOk_stop s Hok). }
    assert (Hlx : live x = true).
    { subst x. cbn [live setIsRealTimeActive].
      destruct (negb (isRealTimeActive s)).
      - now destruct (start_flags (isRealTimeActive s) s) as (_ & -> & _).
      - now destruct (stop_flags s) as (_ & -> & _). }
    destruct (stop_clears (setMountedRef false x) Hx) as [Hclr _].
    fold (effect_cleanup x) in Hclr.
    destruct (effect_run_timers (effect_cleanup x)
                (timersOk_effect_cleanup x Hx)) as [Hrt _].
    destruct (effect_run_flags (effect_cleanup x)) as (_ & Hrl & Hra).
    destruct (effect_cleanup_flags x) as (_ & Hcl & Hca).
    rewrite Hca in Hrt. rewrite Hcl, Hlx in Hrl. rewrite Hca in Hra.
    destruct (isRealTimeActive x) eqn:Hax.
    + now apply (ticking_singleton _ _ Hrt).
    + apply ticking_empty. now rewrite Hrt.
  - destruct (live s && negb (isLoading s)); [|exact Ht].
    destruct (fetchAccountInfo_intervals true s) as (? & _ & _ & ? & ?).
    now apply (ticking_same s).
  - destruct (live s) eqn:Hl; [|exact Ht]. unfold handleVisibilityChange.
    destruct hidden.
    + apply ticking_empty. now destruct (stop_clears s Hok).
    + destruct (isRealTimeActive s) eqn:Ha; [|exact Ht].
      destruct (start_arms true s Hok) as [_ Harm].
      destruct (start_flags true s) as (_ & Hsl & Hsa).
      apply (ticking_singleton _ _ Harm); congruence.
  - destruct (live s) eqn:Hl; [|exact Ht].
    apply ticking_empty.
    change (timers (setLive false (effect_cleanup s)))
      with (timers (stopRealTimeUpdates (setMountedRef false s))).
    now destruct (stop_clears (setMountedRef false s) Hok).
Qed.

Lemma timersOk_size (s : State) : timersOk s -> (size (timers s) <= 1)%nat.
Proof.
  intros Hok. destruct (intervalRef s) as [h|] eqn:Hi.
  - destruct (timers s !! h) as [cb|] eqn:Hl.
    + assert (timers s = {[ h := cb ]}) as ->; [|now rewrite map_size_singleton].
      apply map_eq. intros k. destruct (decide (h = k)) as [<-|Hne].
      * now rewrite lookup_singleton_eq.
      * rewrite lookup_singleton_ne by exact Hne.
        destruct (timers s !! k) as [cb'|] eqn:Hk; [|reflexivity].
        apply Hok in Hk. congruence.
    + assert (timers s = ∅) as ->; [|rewrite map_size_empty; lia].
      apply map_empty. intros k.
      destruct (timers s !! k) as [cb'|] eqn:Hk; [|reflexivity].
      pose proof (Hok _ _ Hk). congruence.
  - assert (timers s = ∅) as ->; [|rewrite map_size_empty; lia].
    apply map_empty. intros k.
    destruct (timers s !! k) as [cb'|] eqn:Hk; [|reflexivity].
    pose proof (Hok _ _ Hk). congruence.
Qed.

Lemma reachable_mount (now : N) : reachable (mount now).
Proof. exists now, []. unfold run. cbn [fold_left]. reflexivity. Qed.

Lemma reachable_ticking (s : State) :
  reachable s -> timersOk s /\ mountedRef s = live s /\ ticking s.
Proof.
  intros (now & tr & ->).
  apply (run_invariant
           (fun s => timersOk s /\ mountedRef s = live s /\ ticking s)).
  - intros s e (Hok & Hm & Ht).
    split; [now apply timersOk_step|].
    split; [now apply mounted_step | now apply ticking_step].
  - destruct (reachable_invariant _ (reachable_mount now)) as [Hok Hm].
    split; [exact Hok|]. split; [exact Hm|].
    intros h cb. unfold mount, initial. open_step.
    intros [[<- <-] | [_ H]]%lookup_insert_Some; [repeat split|].
    now rewrite lookup_empty in H.
Qed.

(** X14. There is never more than one live interval; the one there is, is
    the one [intervalRef] holds, has a period of one second, and is live
    only while real-time updates are on and the component is in the tree:
    none survives a toggle-off or the unmount. *)
Theorem single_interval (s : State) :
  reachable s ->
  (size (timers s) <= 1)%nat /\
  (forall h cb,
     timers s !! h = Some cb ->
     intervalRef s = Some h /\
     cb = {| period := 1000; capturedActive := true |} /\
     isRealTimeActive s = true /\ live s = true) /\
  (isRealTimeActive s = false \/ live s = false -> timers s = ∅).
Proof.
  intros Hr. destruct (reachable_ticking s Hr) as (Hok & _ & Ht).
  split; [now apply timersOk_size|]. split.
  - intros h cb Hl. split; [now apply (Hok h cb)|]. now apply (Ht h cb).
  - intros Hoff. apply map_empty. intros k.
    destruct (timers s !! k) as [cb|] eqn:Hk; [|reflexivity].
    destruct (Ht _ _ Hk) as (_ & Ha & Hl). destruct Hoff; congruence.
Qed.


End MoreDashboardFacts.

(** ** Server suggestions *)
Section SuggestionFacts.
Import JSString Spec.


End SuggestionFacts.

(** ** Concrete runs *)
Section MoreExamples.
Import JSString JS Api Spec Sample.

Lemma validateToken_rejects_keyword_witness :
  validateToken "Login FAILED for user" = false.
Proof.
  apply (validateToken_rejects_keyword "Login " "FAILED" " for user").
  vm_compute. auto.
Defined.

Lemma login_transport_failure_witness :
  loginToMT5 (always (Threw (ThrowError "AbortError" "aborted"))) creds =
    (Returned {| success := false; token := None;
                 error := Some (JString "Request timeout. Please try again.") |},
     [Fetch (loginRequest creds)]).
Proof.
  apply (login_transport_failure
           (always (Threw (ThrowError "AbortError" "aborted"))) creds
           (ThrowError "AbortError" "aborted")).
  - reflexivity.
  - left. reflexivity.
Defined.

Lemma validateForm_agrees_witness :
  effects (loginToMT5 (always (Returned (plain 200 "a1b2c3d4e5f6"))) creds) =
    [Fetch (loginRequest creds)].
Proof.
  apply (validateForm_agrees (always (Returned (plain 200 "a1b2c3d4e5f6")))
           creds).
  vm_compute. reflexivity.
Defined.

Lemma blank_token_login_witness :
  result (App.handleLogin (always (Returned (plain 200 "            ")))
            creds App.initial) =
    Returned {| App.isAuthenticated := false; App.authToken := None;
                App.isLoading := false;
                App.error :=
                  JString "Login failed. Please check your credentials." |}.
Proof.
  apply (blank_token_login (always (Returned (plain 200 "            ")))
           creds (plain 200 "            ") "            " App.initial).
  - reflexivity.
  - reflexivity.
  - reflexivity.
  - reflexivity.
  - reflexivity.
  - vm_compute. lia.
Defined.

Lemma dashboard_token_not_blank_witness :
  allWhite "a1b2c3d4e5f6" = false /\
  trim "a1b2c3d4e5f6" = "a1b2c3d4e5f6" /\
  negb (nonEmpty (trim "a1b2c3d4e5f6")) = false.
Proof.
  apply (dashboard_token_not_blank
           (always (Returned (plain 200 "  a1b2c3d4e5f6  ")))
           [App.Submit creds] "a1b2c3d4e5f6").
  vm_compute. reflexivity.
Defined.


End MoreExamples.

Section MoreDashboardExamples.
Import JS Dashboard Spec Sample.

Lemma publications_counted_witness :
  updateCount (run (mount 0) overtaking) = 2%N /\
  NoDup (published (run (mount 0) overtaking)).
Proof.
  destruct (publications_counted (run (mount 0) overtaking))
    as (Hc & Hnd & _).
  - exists 0%N, overtaking. reflexivity.
  - split; [|exact Hnd]. rewrite Hc. vm_compute. reflexivity.
Defined.

Lemma loading_has_pending_fetch_witness :
  exists id, pending (mount 0) !! id = Some true.
Proof.
  destruct (loading_has_pending_fetch (mount 0)) as (id & Hid & _).
  - exists 0%N, []. vm_compute. reflexivity.
  - vm_compute. reflexivity.
  - vm_compute. reflexivity.
  - exists id. exact Hid.
Defined.

Lemma fetch_failure_keeps_snapshot_witness :
  isConnected (step (mount 0)
                 (Settle 0 (Threw (ThrowTypeError "Failed to fetch")) 900))
    = false.
Proof.
  apply (fetch_failure_keeps_snapshot (mount 0) 0 true
           (ThrowTypeError "Failed to fetch") 900).
  - vm_compute. reflexivity.
  - vm_compute. reflexivity.
Defined.

Lemma single_interval_witness :
  (size (timers (run (mount 0) [ToggleClick; ToggleClick])) <= 1)%nat.
Proof.
  apply (single_interval (run (mount 0) [ToggleClick; ToggleClick])).
  exists 0%N, [ToggleClick; ToggleClick]. reflexivity.
Defined.


End MoreDashboardExamples.
